(** * The state store of the bot factory (database.py)

    A shallow embedding of the SQLite data-access layer: every table is the
    list of its rows (for the AUTOINCREMENT tables in rowid order, which is
    the order of the inserts), every repository function is a function from
    the database before the call to the database after it, together with
    the value the Python function returns.  The list of members is in the
    order of the last upsert of each member; no function modelled here
    reads the order of that table.

    Conventions.
    - SQLite INTEGER columns are [Z]; TEXT columns are [string]; a nullable
      column that the code may fill with [None] is an [option].
    - [datetime.now().isoformat()] is the argument [now] of every function
      that reads the clock.
    - Timestamps are compared as SQLite compares TEXT under the BINARY
      collation: bytewise, lexicographically ([String.compare]).
    - SQL leaves the relative order of rows with equal sort keys
      unspecified; the engine's choice is the parameter [tie] of the two
      functions that run [ORDER BY created_at DESC].
    - A SELECT without ORDER BY returns the rows in the order in which the
      engine meets them: rowid order when it scans the table, the order
      of the index when it reads through the index of a UNIQUE
      constraint ([index_scan]). *)

From Stdlib Require Import String.
From Stdlib Require Import ZArith List Bool Lia Permutation Sorted.
Import ListNotations.
Local Open Scope Z_scope.

(** ** A small relational toolkit *)

Section Table.
Context {row : Type}.

(** [SELECT * FROM t WHERE w] *)
Definition sql_select (w : row -> bool) (t : list row) : list row :=
  filter w t.

(** [DELETE FROM t WHERE w] *)
Definition sql_delete (w : row -> bool) (t : list row) : list row :=
  filter (fun r => negb (w r)) t.

(** [UPDATE t SET ... WHERE w] *)
Definition sql_update (w : row -> bool) (set : row -> row) (t : list row)
  : list row :=
  map (fun r => if w r then set r else r) t.

(** [cursor.rowcount] after an UPDATE or DELETE with condition [w] *)
Definition rowcount (w : row -> bool) (t : list row) : Z :=
  Z.of_nat (length (filter w t)).

(** [SELECT COUNT( * ) FROM t WHERE w] *)
Definition sql_count (w : row -> bool) (t : list row) : Z :=
  Z.of_nat (length (filter w t)).

(** [cursor.fetchone()] *)
Definition fetchone (rows : list row) : option row := hd_error rows.

(** [LIMIT n]: a negative bound means no bound. *)
Definition sql_limit (n : Z) (rows : list row) : list row :=
  if n <? 0 then rows else firstn (Z.to_nat n) rows.
End Table.

(** [NOT x] on an integer: 1 for 0, and 0 for everything else. *)
Definition sql_not (x : Z) : Z := if x =? 0 then 1 else 0.

(** The rowid an AUTOINCREMENT table gives a new row: one more than the
    largest rowid the table ever held ([seq], kept in sqlite_sequence) and
    than every rowid it holds now. *)
Definition next_rowid (seq : Z) (ids : list Z) : Z :=
  fold_right Z.max seq ids + 1.

(** What a Python call does: return a value or raise. *)
Inductive sqlite_error := IntegrityError | OperationalError.

Inductive outcome (A : Type) :=
| Return (a : A)
| Raise (e : sqlite_error).
Arguments Return {A} a.
Arguments Raise {A} e.

(** ** The schema (init_database) *)

Module Member.
Record row := mk {
  user_id : Z;
  first_name : string;
  username : option string;
  joined_at : string;
  bots_created : Z
}.
End Member.

Module Bot.
Record row := mk {
  id : Z;
  token : string;
  bot_username : string;
  bot_type : string;
  owner_id : Z;
  created_at : string;
  active : Z;
  required_channel : option string;
  users_count : Z
}.
End Bot.

Module BotUser.
Record row := mk {
  id : Z;
  bot_token : string;
  user_id : Z;
  first_name : string;
  username : option string;
  joined_at : string;
  banned : Z
}.
End BotUser.

Module Developer.
Record row := mk {
  user_id : Z;
  username : option string;
  added_at : string;
  added_by : option Z
}.
End Developer.

Module BannedMaker.
Record row := mk {
  user_id : Z;
  banned_at : string;
  banned_by : option Z
}.
End BannedMaker.

Module FakeSub.
Record row := mk {
  bot_token : string;
  enabled : Z;
  message : option string;
  updated_at : string
}.
End FakeSub.

Module Remember.
Record row := mk {
  id : Z;
  bot_token : string;
  user_id : Z;
  role : string;
  content : string;
  created_at : string
}.
End Remember.

Module AdhkarSchedule.
Record row := mk {
  id : Z;
  bot_token : string;
  chat_id : Z;
  interval_minutes : Z;
  end_time : option string;
  created_at : string
}.
End AdhkarSchedule.

Module GuardData.
Record row := mk {
  bot_token : string;
  chat_id : Z;
  admin_id : Z;
  kick_count : Z
}.
End GuardData.

Module GuardSetting.
Record row := mk {
  bot_token : string;
  chat_id : Z;
  kick_limit : Z
}.
End GuardSetting.

(** The sqlite_sequence table: one counter per AUTOINCREMENT table. *)
Record sqlite_sequence := mk_seq {
  seq_bots : Z;
  seq_bot_users : Z;
  seq_remember : Z;
  seq_adhkar_schedules : Z
}.

Record database := mk_db {
  members : list Member.row;
  bots : list Bot.row;
  bot_users : list BotUser.row;
  developers : list Developer.row;
  banned_makers : list BannedMaker.row;
  fake_subs : list FakeSub.row;
  remember : list Remember.row;
  adhkar_schedules : list AdhkarSchedule.row;
  guard_data : list GuardData.row;
  guard_settings : list GuardSetting.row;
  sequences : sqlite_sequence
}.

(** The store right after [init_database] on a fresh file. *)
Definition init_database : database :=
  mk_db [] [] [] [] [] [] [] [] [] [] (mk_seq 0 0 0 0).

Definition set_members (db : database) (t : list Member.row) : database :=
  mk_db t (bots db) (bot_users db) (developers db) (banned_makers db)
        (fake_subs db) (remember db) (adhkar_schedules db) (guard_data db)
        (guard_settings db) (sequences db).

Definition set_bots (db : database) (t : list Bot.row) : database :=
  mk_db (members db) t (bot_users db) (developers db) (banned_makers db)
        (fake_subs db) (remember db) (adhkar_schedules db) (guard_data db)
        (guard_settings db) (sequences db).

Definition set_bot_users (db : database) (t : list BotUser.row) : database :=
  mk_db (members db) (bots db) t (developers db) (banned_makers db)
        (fake_subs db) (remember db) (adhkar_schedules db) (guard_data db)
        (guard_settings db) (sequences db).

Definition set_fake_subs (db : database) (t : list FakeSub.row) : database :=
  mk_db (members db) (bots db) (bot_users db) (developers db)
        (banned_makers db) t (remember db) (adhkar_schedules db)
        (guard_data db) (guard_settings db) (sequences db).

Definition set_remember (db : database) (t : list Remember.row) : database :=
  mk_db (members db) (bots db) (bot_users db) (developers db)
        (banned_makers db) (fake_subs db) t (adhkar_schedules db)
        (guard_data db) (guard_settings db) (sequences db).

Definition set_guard_data (db : database) (t : list GuardData.row)
  : database :=
  mk_db (members db) (bots db) (bot_users db) (developers db)
        (banned_makers db) (fake_subs db) (remember db) (adhkar_schedules db)
        t (guard_settings db) (sequences db).

Definition set_sequences (db : database) (s : sqlite_sequence) : database :=
  mk_db (members db) (bots db) (bot_users db) (developers db)
        (banned_makers db) (fake_subs db) (remember db) (adhkar_schedules db)
        (guard_data db) (guard_settings db) s.


Definition set_seq_remember (db : database) (v : Z) : database :=
  let s := sequences db in
  set_sequences db
    (mk_seq (seq_bots s) (seq_bot_users s) v (seq_adhkar_schedules s)).

(** ** Members *)

(** [add_member]: INSERT OR REPLACE, the new row taking over the
    bots_created of the row it replaces (0 when there is none). *)
Definition add_member (now : string) (db : database) (user_id : Z)
    (first_name : string) (username : option string) : database :=
  let w := fun r => Member.user_id r =? user_id in
  let kept :=
    match fetchone (sql_select w (members db)) with
    | Some r => Member.bots_created r
    | None => 0
    end in
  set_members db
    (sql_delete w (members db)
       ++ [Member.mk user_id first_name username now kept]).

Definition get_member (db : database) (user_id : Z) : option Member.row :=
  fetchone (sql_select (fun r => Member.user_id r =? user_id) (members db)).

Definition increment_bots_created (db : database) (user_id : Z) : database :=
  set_members db
    (sql_update (fun r => Member.user_id r =? user_id)
       (fun r => Member.mk (Member.user_id r) (Member.first_name r)
                   (Member.username r) (Member.joined_at r)
                   (Member.bots_created r + 1))
       (members db)).

(** ** Bots *)

(** The INSERT of [add_bot]: the UNIQUE constraint on token makes it fail
    when a row has the token already; active and users_count take their
    column defaults. *)
Definition insert_into_bots (now : string) (db : database) (token : string)
    (bot_username bot_type : string) (owner_id : Z)
    (required_channel : option string) : sqlite_error + database :=
  if existsb (fun b => String.eqb (Bot.token b) token) (bots db)
  then inl IntegrityError
  else
    let id := next_rowid (seq_bots (sequences db)) (map Bot.id (bots db)) in
    let s := sequences db in
    inr (set_sequences
           (set_bots db
              (bots db ++ [Bot.mk id token bot_username bot_type owner_id now
                             1 required_channel 0]))
           (mk_seq id (seq_bot_users s) (seq_remember s)
                   (seq_adhkar_schedules s))).

(** [add_bot]: both handlers return False; without the commit the failed
    statement leaves the store as it was. *)
Definition add_bot (now : string) (db : database) (token : string)
    (bot_username bot_type : string) (owner_id : Z)
    (required_channel : option string) : outcome bool * database :=
  match insert_into_bots now db token bot_username bot_type owner_id
          required_channel with
  | inr db' => (Return true, db')
  | inl IntegrityError => (Return false, db)
  | inl _ => (Return false, db)
  end.

Definition get_bot_by_token (db : database) (token : string)
  : option Bot.row :=
  fetchone (sql_select (fun b => String.eqb (Bot.token b) token) (bots db)).

Definition set_active (b : Bot.row) (v : Z) : Bot.row :=
  Bot.mk (Bot.id b) (Bot.token b) (Bot.bot_username b) (Bot.bot_type b)
         (Bot.owner_id b) (Bot.created_at b) v (Bot.required_channel b)
         (Bot.users_count b).

Definition set_users_count (b : Bot.row) (v : Z) : Bot.row :=
  Bot.mk (Bot.id b) (Bot.token b) (Bot.bot_username b) (Bot.bot_type b)
         (Bot.owner_id b) (Bot.created_at b) (Bot.active b)
         (Bot.required_channel b) v.

Definition toggle_bot_active (db : database) (token : string)
  : bool * database :=
  let w := fun b => String.eqb (Bot.token b) token in
  let affected := rowcount w (bots db) in
  (0 <? affected,
   set_bots db
     (sql_update w (fun b => set_active b (sql_not (Bot.active b)))
        (bots db))).

Definition delete_bot (db : database) (token : string) : database :=
  let db1 :=
    set_bots db
      (sql_delete (fun b => String.eqb (Bot.token b) token) (bots db)) in
  let db2 :=
    set_bot_users db1
      (sql_delete (fun u => String.eqb (BotUser.bot_token u) token)
         (bot_users db1)) in
  let db3 :=
    set_fake_subs db2
      (sql_delete (fun f => String.eqb (FakeSub.bot_token f) token)
         (fake_subs db2)) in
  set_remember db3
    (sql_delete (fun m => String.eqb (Remember.bot_token m) token)
       (remember db3)).

(** ** Bot users *)

Definition set_banned (u : BotUser.row) (v : Z) : BotUser.row :=
  BotUser.mk (BotUser.id u) (BotUser.bot_token u) (BotUser.user_id u)
             (BotUser.first_name u) (BotUser.username u)
             (BotUser.joined_at u) v.

(** [add_bot_user]: INSERT OR IGNORE on the UNIQUE pair, then the count of
    the token's rows with banned = 0 is written to the token's bot.  The
    engine draws the rowid of the new row before it checks the UNIQUE
    constraint, and records it in sqlite_sequence whether the row is
    stored or ignored. *)
Definition add_bot_user (now : string) (db : database) (bot_token : string)
    (user_id : Z) (first_name : string) (username : option string)
  : database :=
  let dup := fun u => String.eqb (BotUser.bot_token u) bot_token
                      && (BotUser.user_id u =? user_id) in
  let id := next_rowid (seq_bot_users (sequences db))
              (map BotUser.id (bot_users db)) in
  let s := sequences db in
  let db1 :=
    set_sequences
      (if existsb dup (bot_users db) then db
       else
         set_bot_users db
           (bot_users db
              ++ [BotUser.mk id bot_token user_id first_name username now 0]))
      (mk_seq (seq_bots s) id (seq_remember s) (seq_adhkar_schedules s)) in
  let count :=
    sql_count (fun u => String.eqb (BotUser.bot_token u) bot_token
                        && (BotUser.banned u =? 0))
      (bot_users db1) in
  set_bots db1
    (sql_update (fun b => String.eqb (Bot.token b) bot_token)
       (fun b => set_users_count b count) (bots db1)).

Definition ban_bot_user (db : database) (bot_token : string) (user_id : Z)
  : database :=
  set_bot_users db
    (sql_update (fun u => String.eqb (BotUser.bot_token u) bot_token
                          && (BotUser.user_id u =? user_id))
       (fun u => set_banned u 1) (bot_users db)).

Definition unban_bot_user (db : database) (bot_token : string) (user_id : Z)
  : database :=
  set_bot_users db
    (sql_update (fun u => String.eqb (BotUser.bot_token u) bot_token
                          && (BotUser.user_id u =? user_id))
       (fun u => set_banned u 0) (bot_users db)).

(** ** Remember (AI memory) *)

(** The engine's choice among rows with equal created_at: [tie a b] says
    that [a] is listed before [b]. *)
Definition tie_break := Remember.row -> Remember.row -> bool.

(** [a] goes before [b] under ORDER BY created_at DESC. *)
Definition precedes (tie : tie_break) (a b : Remember.row) : bool :=
  String.ltb (Remember.created_at b) (Remember.created_at a)
  || (String.eqb (Remember.created_at a) (Remember.created_at b) && tie a b).

Fixpoint insert_desc (tie : tie_break) (x : Remember.row)
    (l : list Remember.row) : list Remember.row :=
  match l with
  | [] => [x]
  | y :: l' => if precedes tie x y then x :: l else y :: insert_desc tie x l'
  end.

(** [ORDER BY created_at DESC] *)
Definition order_by_created_at_desc (tie : tie_break)
    (rows : list Remember.row) : list Remember.row :=
  fold_right (insert_desc tie) [] rows.

(** Rows with equal created_at in scan order (ascending id). *)
Definition tie_scan_order : tie_break :=
  fun a b => Remember.id a <? Remember.id b.

(** Rows with equal created_at newest id first: the order
    (created_at, then id), descending. *)
Definition tie_id_desc : tie_break :=
  fun a b => Remember.id b <? Remember.id a.

(** [WHERE bot_token = ? AND user_id = ?] *)
Definition in_partition (bot_token : string) (user_id : Z)
    (r : Remember.row) : bool :=
  String.eqb (Remember.bot_token r) bot_token
  && (Remember.user_id r =? user_id).

(** [id NOT IN (ids)] *)
Definition not_in (ids : list Z) (x : Z) : bool :=
  negb (existsb (Z.eqb x) ids).

(** [add_memory]: the INSERT, then the DELETE of the rows of the pair
    whose id is not among the 20 first ids by created_at DESC. *)
Definition add_memory (tie : tie_break) (now : string) (db : database)
    (bot_token : string) (user_id : Z) (role content : string) : database :=
  let id := next_rowid (seq_remember (sequences db))
              (map Remember.id (remember db)) in
  let s := sequences db in
  let t1 := remember db
              ++ [Remember.mk id bot_token user_id role content now] in
  let keep :=
    map Remember.id
      (sql_limit 20
         (order_by_created_at_desc tie
            (sql_select (in_partition bot_token user_id) t1))) in
  let t2 :=
    sql_delete (fun r => in_partition bot_token user_id r
                         && not_in keep (Remember.id r)) t1 in
  set_sequences (set_remember db t2)
    (mk_seq (seq_bots s) (seq_bot_users s) id (seq_adhkar_schedules s)).

(** The dict [{"role": ..., "content": ...}] of [get_memory]. *)
Module Message.
Record dict := mk { role : string; content : string }.
End Message.

Definition get_memory (tie : tie_break) (db : database) (bot_token : string)
    (user_id : Z) (limit : Z) : list Message.dict :=
  let rows :=
    sql_limit limit
      (order_by_created_at_desc tie
         (sql_select (in_partition bot_token user_id) (remember db))) in
  map (fun r => Message.mk (Remember.role r) (Remember.content r))
      (rev rows).

(** Python truth value of an optional int: None and 0 are false. *)
Definition truthy (x : option Z) : bool :=
  match x with
  | Some n => negb (n =? 0)
  | None => false
  end.

(** [column = ?] with an optional int bound to the parameter: no row
    equals NULL. *)
Definition eq_param (column : Z) (p : option Z) : bool :=
  match p with
  | Some v => column =? v
  | None => false
  end.

Definition clear_memory (db : database) (bot_token : string)
    (user_id : option Z) : database :=
  if truthy user_id then
    set_remember db
      (sql_delete (fun r => String.eqb (Remember.bot_token r) bot_token
                            && eq_param (Remember.user_id r) user_id)
         (remember db))
  else
    set_remember db
      (sql_delete (fun r => String.eqb (Remember.bot_token r) bot_token)
         (remember db)).

(** ** Guard data *)

Definition guard_key (bot_token : string) (chat_id admin_id : Z)
    (r : GuardData.row) : bool :=
  String.eqb (GuardData.bot_token r) bot_token
  && (GuardData.chat_id r =? chat_id)
  && (GuardData.admin_id r =? admin_id).

Definition get_guard_kick_count (db : database) (bot_token : string)
    (chat_id admin_id : Z) : Z :=
  match fetchone (sql_select (guard_key bot_token chat_id admin_id)
                    (guard_data db)) with
  | Some r => GuardData.kick_count r
  | None => 0
  end.

(** [SET kick_count = kick_count + 1] *)
Definition bump (r : GuardData.row) : GuardData.row :=
  GuardData.mk (GuardData.bot_token r) (GuardData.chat_id r)
               (GuardData.admin_id r) (GuardData.kick_count r + 1).

(** [increment_guard_kick]: INSERT ... ON CONFLICT DO UPDATE, then the
    SELECT of the stored value. *)
Definition increment_guard_kick (db : database) (bot_token : string)
    (chat_id admin_id : Z) : Z * database :=
  let w := guard_key bot_token chat_id admin_id in
  let t :=
    if existsb w (guard_data db)
    then sql_update w bump (guard_data db)
    else guard_data db ++ [GuardData.mk bot_token chat_id admin_id 1] in
  (match fetchone (sql_select w t) with
   | Some r => GuardData.kick_count r
   | None => 1
   end,
   set_guard_data db t).

Definition reset_guard_kicks (db : database) (bot_token : string)
    (chat_id admin_id : Z) : database :=
  set_guard_data db
    (sql_delete (guard_key bot_token chat_id admin_id) (guard_data db)).

(** ** Scenarios *)

(** One entry to append: the clock reading, the role and the content. *)
Record append := mk_append {
  at_time : string;
  with_role : string;
  with_content : string
}.

(** [add_memory] called once per entry, in order, for one pair. *)
Fixpoint add_memories (tie : tie_break) (db : database) (bot_token : string)
    (user_id : Z) (entries : list append) : database :=
  match entries with
  | [] => db
  | e :: es =>
      add_memories tie
        (add_memory tie (at_time e) db bot_token user_id (with_role e)
           (with_content e))
        bot_token user_id es
  end.

(** ** Predicates and example stores of the properties *)

(** A store with one bot. *)
Definition one_bot : database :=
  snd (add_bot "2024-05-01T10:00:00.000001" init_database "123:abc"
         "first_bot" "guard" 42 None).

(** The flag is 0 or 1 in every store built by [add_bot] and
    [toggle_bot_active] from the empty one. *)
Definition active_is_flag (db : database) : Prop :=
  Forall (fun b => Bot.active b = 0 \/ Bot.active b = 1) (bots db).

(** The bot of [one_bot] with two users. *)
Definition two_users : database :=
  add_bot_user "2024-05-01T10:02:00.000004"
    (add_bot_user "2024-05-01T10:01:00.000003" one_bot "123:abc" 1001 "Ana"
       None)
    "123:abc" 1002 "Bo" (Some "bo_b"%string).

(** One admin counted twice in one chat. *)
Definition kicked_twice : database :=
  snd (increment_guard_kick
         (snd (increment_guard_kick init_database "123:abc" (-100500) 77))
         "123:abc" (-100500) 77).

(** One bot with a memory row for user 0 and one for user 1001. *)
Definition two_partitions : database :=
  add_memory tie_scan_order "2024-05-01T12:00:01.000009"
    (add_memory tie_scan_order "2024-05-01T12:00:00.000008" init_database
       "123:abc" 0 "user" "hello")
    "123:abc" 1001 "user" "salam".

(** Timestamp [s1] sorts strictly before [s2]. *)
Definition earlier (s1 s2 : string) : Prop := String.ltb s1 s2 = true.

(** [b] is not newer than [a]. *)
Definition not_newer (a b : Remember.row) : Prop :=
  String.ltb (Remember.created_at a) (Remember.created_at b) = false.

(** The rows of a pair, in storage order. *)
Definition partition_of (bot_token : string) (user_id : Z) (db : database)
  : list Remember.row :=
  sql_select (in_partition bot_token user_id) (remember db).

(** The [n] last elements of a list. *)
Definition lastn {A : Type} (n : nat) (l : list A) : list A :=
  skipn (length l - n) l.

(** What was appended to obtain a row. *)
Definition to_append (r : Remember.row) : append :=
  mk_append (Remember.created_at r) (Remember.role r) (Remember.content r).

(** The rows that the DELETE of [add_memory] spares within the pair. *)
Definition kept (keep : list Z) (r : Remember.row) : bool :=
  negb (not_in keep (Remember.id r)).

(** The row that [add_memory] inserts. *)
Definition new_row (bot_token : string) (user_id : Z) (db : database)
    (now role content : string) : Remember.row :=
  Remember.mk
    (next_rowid (seq_remember (sequences db))
       (map Remember.id (remember db)))
    bot_token user_id role content now.

(** The PRIMARY KEY of remember: no two rows share an id. *)
Definition remember_ids_unique (db : database) : Prop :=
  NoDup (map Remember.id (remember db)).

(** The state of a pair while [done] is appended to it: after rows [o]
    older than everything in [all], the rows of the last 20 entries of
    [done], in storage order; [o] is empty once 20 entries are in. *)
Definition window_inv (bot_token : string) (user_id : Z) (db : database)
    (done all : list append) : Prop :=
  remember_ids_unique db
  /\ exists o n,
       partition_of bot_token user_id db = o ++ n
       /\ map to_append n = lastn 20 done
       /\ (forall y a, In y o -> In a all ->
             earlier (Remember.created_at y) (at_time a))
       /\ ((20 <= length done)%nat -> o = []).

(** The dict that [get_memory] returns for an entry. *)
Definition message_of (e : append) : Message.dict :=
  Message.mk (with_role e) (with_content e).

(** 25 entries, one second apart. *)
Definition twenty_five : list append :=
  map (fun s => mk_append (String.append "2024-05-01T12:00:" s) "user"
                  (String.append "message " s))
      ["01"; "02"; "03"; "04"; "05"; "06"; "07"; "08"; "09"; "10"; "11";
       "12"; "13"; "14"; "15"; "16"; "17"; "18"; "19"; "20"; "21"; "22";
       "23"; "24"; "25"]%string.

(** Two entries a microsecond apart. *)
Definition two_apart : database :=
  add_memories tie_scan_order init_database "123:abc" 1001
    [mk_append "2024-05-01T12:00:00.000010" "user" "first";
     mk_append "2024-05-01T12:00:00.000011" "assistant" "second"].

(** Entries written at one and the same instant: two of them, and 20. *)
Definition same_instant (contents : list string) : list append :=
  map (mk_append "2024-05-01T12:00:00.000013" "user") contents.

Definition tied_pair : database :=
  add_memories tie_scan_order init_database "123:abc" 1001
    (same_instant ["first"; "second"]%string).

Definition twenty_tied : database :=
  add_memories tie_scan_order init_database "123:abc" 1001
    (same_instant
       ["01"; "02"; "03"; "04"; "05"; "06"; "07"; "08"; "09"; "10"; "11";
        "12"; "13"; "14"; "15"; "16"; "17"; "18"; "19"; "20"]%string).

(** 25 entries written at one and the same instant. *)
Definition twenty_five_tied : list append :=
  same_instant
    ["01"; "02"; "03"; "04"; "05"; "06"; "07"; "08"; "09"; "10"; "11";
     "12"; "13"; "14"; "15"; "16"; "17"; "18"; "19"; "20"; "21"; "22";
     "23"; "24"; "25"]%string.

(** The 24 first entries of [twenty_five], then one written after the
    local clock was set back by an hour. *)
Definition clock_set_back : list append :=
  firstn 24 twenty_five
  ++ [mk_append "2024-05-01T11:00:25" "user" "message 25"].

(** * The other repository functions *)

Definition set_developers (db : database) (t : list Developer.row)
  : database :=
  mk_db (members db) (bots db) (bot_users db) t (banned_makers db)
        (fake_subs db) (remember db) (adhkar_schedules db) (guard_data db)
        (guard_settings db) (sequences db).

Definition set_banned_makers (db : database) (t : list BannedMaker.row)
  : database :=
  mk_db (members db) (bots db) (bot_users db) (developers db) t
        (fake_subs db) (remember db) (adhkar_schedules db) (guard_data db)
        (guard_settings db) (sequences db).

Definition set_adhkar_schedules (db : database)
    (t : list AdhkarSchedule.row) : database :=
  mk_db (members db) (bots db) (bot_users db) (developers db)
        (banned_makers db) (fake_subs db) (remember db) t (guard_data db)
        (guard_settings db) (sequences db).

Definition set_guard_settings (db : database) (t : list GuardSetting.row)
  : database :=
  mk_db (members db) (bots db) (bot_users db) (developers db)
        (banned_makers db) (fake_subs db) (remember db) (adhkar_schedules db)
        (guard_data db) t (sequences db).

(** Python truth value of an optional str: None and the empty string are
    false. *)
Definition truthy_str (x : option string) : bool :=
  match x with
  | Some s => negb (String.eqb s "")
  | None => false
  end.

(** [column = ?] with an optional str bound to the parameter. *)
Definition eq_param_str (column : string) (p : option string) : bool :=
  match p with
  | Some v => String.eqb column v
  | None => false
  end.

(** The place of a new row in a table whose rowid is its INTEGER PRIMARY
    KEY: the table is stored, and scanned, in ascending rowid order. *)
Fixpoint insert_by_rowid {row : Type} (rowid : row -> Z) (x : row)
    (t : list row) : list row :=
  match t with
  | [] => [x]
  | y :: t' =>
      if rowid x <? rowid y then x :: t else y :: insert_by_rowid rowid x t'
  end.

(** The order in which a query with [WHERE bot_token = ?] meets the rows
    of a table with a UNIQUE (bot_token, k) constraint: the engine reads
    them through the index of the constraint, by ascending [k], and rows
    with the same [k] by ascending rowid. *)
Fixpoint insert_by_index {row : Type} (k : row -> Z) (x : row)
    (rows : list row) : list row :=
  match rows with
  | [] => [x]
  | y :: rows' =>
      if k x <=? k y then x :: rows else y :: insert_by_index k x rows'
  end.

Definition index_scan {row : Type} (k : row -> Z) (rows : list row)
  : list row :=
  fold_right (insert_by_index k) [] rows.

(** ** Bots, continued *)

Definition get_bot_by_username (db : database) (username : string)
  : option Bot.row :=
  fetchone
    (sql_select (fun b => String.eqb (Bot.bot_username b) username)
       (bots db)).

Definition get_all_bots (db : database) : list Bot.row := bots db.

Definition get_bots_by_type (db : database) (bot_type : string)
  : list Bot.row :=
  sql_select (fun b => String.eqb (Bot.bot_type b) bot_type) (bots db).

Definition set_required_channel (b : Bot.row) (v : option string)
  : Bot.row :=
  Bot.mk (Bot.id b) (Bot.token b) (Bot.bot_username b) (Bot.bot_type b)
         (Bot.owner_id b) (Bot.created_at b) (Bot.active b) v
         (Bot.users_count b).

Definition update_bot_channel (db : database) (token channel : string)
  : database :=
  set_bots db
    (sql_update (fun b => String.eqb (Bot.token b) token)
       (fun b => set_required_channel b (Some channel)) (bots db)).

Definition update_bot_users_count (db : database) (token : string)
    (count : Z) : database :=
  set_bots db
    (sql_update (fun b => String.eqb (Bot.token b) token)
       (fun b => set_users_count b count) (bots db)).

(** ** Bot users, continued *)

(** [get_bot_users]: the rows of the bot, read through the index of
    UNIQUE (bot_token, user_id). *)
Definition get_bot_users (db : database) (bot_token : string)
  : list BotUser.row :=
  index_scan BotUser.user_id
    (sql_select (fun u => String.eqb (BotUser.bot_token u) bot_token)
       (bot_users db)).

(** [row['banned'] == 1 if row else False] *)
Definition is_bot_user_banned (db : database) (bot_token : string)
    (user_id : Z) : bool :=
  match fetchone
          (sql_select (fun u => String.eqb (BotUser.bot_token u) bot_token
                                && (BotUser.user_id u =? user_id))
             (bot_users db)) with
  | Some row => BotUser.banned row =? 1
  | None => false
  end.

(** ** Developers *)

Definition add_developer (now : string) (db : database) (user_id : Z)
    (username : option string) (added_by : option Z) : bool * database :=
  (true,
   set_developers db
     (insert_by_rowid Developer.user_id
        (Developer.mk user_id username now added_by)
        (sql_delete (fun d => Developer.user_id d =? user_id)
           (developers db)))).

Definition remove_developer (db : database) (user_id : Z)
  : bool * database :=
  let w := fun d => Developer.user_id d =? user_id in
  (0 <? rowcount w (developers db),
   set_developers db (sql_delete w (developers db))).

Definition get_all_developers (db : database) : list Developer.row :=
  developers db.

Definition is_developer (db : database) (user_id : Z) : bool :=
  match fetchone (sql_select (fun d => Developer.user_id d =? user_id)
                    (developers db)) with
  | Some _ => true
  | None => false
  end.

(** ** Banned makers *)

Definition ban_maker (now : string) (db : database) (user_id : Z)
    (banned_by : option Z) : bool * database :=
  (true,
   set_banned_makers db
     (insert_by_rowid BannedMaker.user_id
        (BannedMaker.mk user_id now banned_by)
        (sql_delete (fun m => BannedMaker.user_id m =? user_id)
           (banned_makers db)))).

Definition unban_maker (db : database) (user_id : Z) : bool * database :=
  let w := fun m => BannedMaker.user_id m =? user_id in
  (0 <? rowcount w (banned_makers db),
   set_banned_makers db (sql_delete w (banned_makers db))).

Definition is_maker_banned (db : database) (user_id : Z) : bool :=
  match fetchone (sql_select (fun m => BannedMaker.user_id m =? user_id)
                    (banned_makers db)) with
  | Some _ => true
  | None => false
  end.

Definition get_all_banned_makers (db : database) : list Z :=
  map BannedMaker.user_id (banned_makers db).

(** ** Fake subscriptions *)

(** [set_fake_sub]: INSERT OR REPLACE on the bot_token key; the new row
    takes the next rowid, after every row of the table. *)
Definition set_fake_sub (now : string) (db : database) (bot_token : string)
    (enabled : bool) (message : option string) : bool * database :=
  (true,
   set_fake_subs db
     (sql_delete (fun f => String.eqb (FakeSub.bot_token f) bot_token)
        (fake_subs db)
      ++ [FakeSub.mk bot_token (if enabled then 1 else 0) message now])).

Definition get_fake_sub (db : database) (bot_token : string)
  : option FakeSub.row :=
  fetchone
    (sql_select (fun f => String.eqb (FakeSub.bot_token f) bot_token)
       (fake_subs db)).

Definition get_all_fake_subs (db : database) : list FakeSub.row :=
  sql_select (fun f => FakeSub.enabled f =? 1) (fake_subs db).

(** ** Adhkar schedules *)

Definition schedule_key (bot_token : string) (chat_id : Z)
    (a : AdhkarSchedule.row) : bool :=
  String.eqb (AdhkarSchedule.bot_token a) bot_token
  && (AdhkarSchedule.chat_id a =? chat_id).

(** [add_adhkar_schedule]: INSERT OR REPLACE on the UNIQUE pair; the row
    that replaces another one gets a new id. *)
Definition add_adhkar_schedule (now : string) (db : database)
    (bot_token : string) (chat_id interval_minutes : Z)
    (end_time : option string) : bool * database :=
  let id := next_rowid (seq_adhkar_schedules (sequences db))
              (map AdhkarSchedule.id (adhkar_schedules db)) in
  let s := sequences db in
  (true,
   set_sequences
     (set_adhkar_schedules db
        (sql_delete (schedule_key bot_token chat_id) (adhkar_schedules db)
         ++ [AdhkarSchedule.mk id bot_token chat_id interval_minutes
               end_time now]))
     (mk_seq (seq_bots s) (seq_bot_users s) (seq_remember s) id)).

(** [get_adhkar_schedules]: with a token that [if bot_token] takes for
    true, the rows of the bot, read through the index of
    UNIQUE (bot_token, chat_id); otherwise the whole table, in rowid
    order. *)
Definition get_adhkar_schedules (db : database) (bot_token : option string)
  : list AdhkarSchedule.row :=
  if truthy_str bot_token then
    index_scan AdhkarSchedule.chat_id
      (sql_select
         (fun a => eq_param_str (AdhkarSchedule.bot_token a) bot_token)
         (adhkar_schedules db))
  else adhkar_schedules db.

Definition remove_adhkar_schedule (db : database) (bot_token : string)
    (chat_id : Z) : database :=
  set_adhkar_schedules db
    (sql_delete (schedule_key bot_token chat_id) (adhkar_schedules db)).

(** ** Guard settings *)

Definition setting_key (bot_token : string) (chat_id : Z)
    (g : GuardSetting.row) : bool :=
  String.eqb (GuardSetting.bot_token g) bot_token
  && (GuardSetting.chat_id g =? chat_id).

(** The dict of [get_guard_settings]: the stored row, or the literal with
    the one key kick_limit. *)
Inductive guard_settings_dict :=
| RowDict (row : GuardSetting.row)
| KickLimitDict (kick_limit : Z).

(** [settings["kick_limit"]] *)
Definition kick_limit_of (d : guard_settings_dict) : Z :=
  match d with
  | RowDict row => GuardSetting.kick_limit row
  | KickLimitDict k => k
  end.

Definition get_guard_settings (db : database) (bot_token : string)
    (chat_id : Z) : guard_settings_dict :=
  match fetchone (sql_select (setting_key bot_token chat_id)
                    (guard_settings db)) with
  | Some row => RowDict row
  | None => KickLimitDict 5
  end.

Definition set_guard_kick_limit (db : database) (bot_token : string)
    (chat_id limit : Z) : database :=
  set_guard_settings db
    (sql_delete (setting_key bot_token chat_id) (guard_settings db)
     ++ [GuardSetting.mk bot_token chat_id limit]).

(** ** Statistics *)

(** The engine's choice among bots with equal users_count. *)
Definition bot_tie_break := Bot.row -> Bot.row -> bool.

Definition more_users (tie : bot_tie_break) (a b : Bot.row) : bool :=
  (Bot.users_count b <? Bot.users_count a)
  || ((Bot.users_count a =? Bot.users_count b) && tie a b).

Fixpoint insert_by_users_count (tie : bot_tie_break) (x : Bot.row)
    (l : list Bot.row) : list Bot.row :=
  match l with
  | [] => [x]
  | y :: l' =>
      if more_users tie x y then x :: l
      else y :: insert_by_users_count tie x l'
  end.

(** [ORDER BY users_count DESC] *)
Definition order_by_users_count_desc (tie : bot_tie_break)
    (rows : list Bot.row) : list Bot.row :=
  fold_right (insert_by_users_count tie) [] rows.

Record statistics := mk_statistics {
  total_members : Z;
  total_bots : Z;
  active_bots : Z;
  total_bot_users : Z;
  total_messages : Z;
  most_active_bot : option string;
  most_active_users : Z
}.

Definition get_statistics (tie : bot_tie_break) (db : database)
  : statistics :=
  let most_active :=
    fetchone (sql_limit 1 (order_by_users_count_desc tie (bots db))) in
  mk_statistics
    (sql_count (fun _ => true) (members db))
    (sql_count (fun _ => true) (bots db))
    (sql_count (fun b => Bot.active b =? 1) (bots db))
    (sql_count (fun _ => true) (bot_users db))
    (sql_count (fun _ => true) (remember db))
    (match most_active with
     | Some b => Some (Bot.bot_username b)
     | None => None
     end)
    (match most_active with
     | Some b => Bot.users_count b
     | None => 0
     end).

(** ** Clearing the database *)

(** [clear_all_data]: a DELETE on each of the ten tables; sqlite_sequence
    is not among them. *)
Definition clear_all_data (db : database) : database :=
  mk_db [] [] [] [] [] [] [] [] [] [] (sequences db).

(** ** Predicates and example stores of the further properties *)

(** No two bots share a token (UNIQUE). *)
Definition tokens_unique (db : database) : Prop :=
  NoDup (map Bot.token (bots db)).

(** sqlite_sequence is at least every id that bots holds. *)
Definition bot_ids_recorded (db : database) : Prop :=
  Forall (fun b => Bot.id b <= seq_bots (sequences db)) (bots db).

(** A table in strictly ascending rowid order. *)
Definition ascending (ids : list Z) : Prop := StronglySorted Z.lt ids.

(** [increment_guard_kick] called [n] times. *)
Fixpoint increment_guard_kick_times (n : nat) (db : database)
    (bot_token : string) (chat_id admin_id : Z) : database :=
  match n with
  | O => db
  | S n' =>
      increment_guard_kick_times n'
        (snd (increment_guard_kick db bot_token chat_id admin_id))
        bot_token chat_id admin_id
  end.

(** [WHERE bot_token = ? AND user_id = ?] on bot_users. *)
Definition pair_key (bot_token : string) (user_id : Z) (u : BotUser.row)
  : bool :=
  String.eqb (BotUser.bot_token u) bot_token
  && (BotUser.user_id u =? user_id).

(** The number of users of a bot that are not banned. *)
Definition count_not_banned (db : database) (bot_token : string) : Z :=
  sql_count (fun u => String.eqb (BotUser.bot_token u) bot_token
                      && (BotUser.banned u =? 0)) (bot_users db).

(** [WHERE bot_token = ?] on adhkar_schedules. *)
Definition of_bot (bot_token : string) (a : AdhkarSchedule.row) : bool :=
  String.eqb (AdhkarSchedule.bot_token a) bot_token.

(** Schedules of two bots: the first one set for chat -100, for chat
    -200 and for chat -100 again, the second one for chat -400. *)
Definition three_schedules : database :=
  snd (add_adhkar_schedule "2024-05-01T13:00:03.000043"
         (snd (add_adhkar_schedule "2024-05-01T13:00:02.000042"
                 (snd (add_adhkar_schedule "2024-05-01T13:00:01.000041"
                         (snd (add_adhkar_schedule
                                 "2024-05-01T13:00:00.000040" init_database
                                 "123:abc" (-100) 5 None))
                         "123:abc" (-200) 10 None))
                 "456:def" (-400) 5 None))
         "123:abc" (-100) 15 None).

(** * Properties *)

(** ** The toolkit *)

Section TableFacts.
Context {row : Type}.
Implicit Types (w : row -> bool) (t : list row).

Lemma select_after_delete w t : sql_select w (sql_delete w t) = [].
Proof.
  unfold sql_select, sql_delete.
  induction t as [|r t IH]; simpl; [reflexivity|].
  destruct (w r) eqn:E; simpl; [|rewrite E]; exact IH.
Qed.

Lemma count_after_delete w t : sql_count w (sql_delete w t) = 0.
Proof.
  unfold sql_count. fold (sql_select w (sql_delete w t)).
  now rewrite select_after_delete.
Qed.

Lemma update_after_delete w (f : row -> row) t :
  sql_update w f (sql_delete w t) = sql_delete w t.
Proof.
  unfold sql_update, sql_delete.
  induction t as [|r t IH]; simpl; [reflexivity|].
  destruct (w r) eqn:E; simpl; [|rewrite E, IH]; auto.
Qed.

Lemma select_app w t1 t2 :
  sql_select w (t1 ++ t2) = sql_select w t1 ++ sql_select w t2.
Proof. apply filter_app. Qed.

Lemma select_none w t :
  (forall r, In r t -> w r = false) -> sql_select w t = [].
Proof.
  unfold sql_select. induction t as [|r t IH]; simpl; intros H; auto.
  rewrite (H r (or_introl eq_refl)). auto.
Qed.

Lemma select_all w t :
  (forall r, In r t -> w r = true) -> sql_select w t = t.
Proof.
  unfold sql_select. induction t as [|r t IH]; simpl; intros H; auto.
  rewrite (H r (or_introl eq_refl)). f_equal. auto.
Qed.

Lemma update_none w (f : row -> row) t :
  (forall r, In r t -> w r = false) -> sql_update w f t = t.
Proof.
  unfold sql_update. induction t as [|r t IH]; simpl; intros H; auto.
  rewrite (H r (or_introl eq_refl)). f_equal. auto.
Qed.

Lemma existsb_select w t :
  existsb w t = false -> sql_select w t = [].
Proof.
  intros H. apply select_none. intros r Hr.
  destruct (w r) eqn:E; auto.
  assert (existsb w t = true) by (apply existsb_exists; eauto).
  congruence.
Qed.
End TableFacts.

(** ** Bot.delete *)

(** C6: after [delete_bot] no row of bots, bot_users, fake_subs or remember
    carries the token. *)
Theorem delete_bot_cascades (db : database) (token : string) :
  let db' := delete_bot db token in
  sql_count (fun b => String.eqb (Bot.token b) token) (bots db') = 0
  /\ sql_count (fun u => String.eqb (BotUser.bot_token u) token)
       (bot_users db') = 0
  /\ sql_count (fun f => String.eqb (FakeSub.bot_token f) token)
       (fake_subs db') = 0
  /\ sql_count (fun m => String.eqb (Remember.bot_token m) token)
       (remember db') = 0.
Proof.
  simpl. repeat split; apply count_after_delete.
Qed.

(** C9: [delete_bot] leaves adhkar_schedules, guard_data and guard_settings
    as they were, the rows of the deleted token included. *)
Theorem delete_bot_keeps_schedules_and_guard (db : database)
    (token : string) :
  adhkar_schedules (delete_bot db token) = adhkar_schedules db
  /\ guard_data (delete_bot db token) = guard_data db
  /\ guard_settings (delete_bot db token) = guard_settings db.
Proof. repeat split. Qed.

(** ** Bot.create *)

Lemma existsb_token (db : database) (token : string) :
  (exists b, In b (bots db) /\ Bot.token b = token) ->
  existsb (fun b => String.eqb (Bot.token b) token) (bots db) = true.
Proof.
  intros [b [Hin Ht]]. apply existsb_exists. exists b. split; auto.
  now apply String.eqb_eq.
Qed.

(** C4: with the token already in bots, [add_bot] returns False, raises
    nothing, and the store is the one before the call. *)
Theorem add_bot_duplicate_token (now : string) (db : database)
    (token bot_username bot_type : string) (owner_id : Z)
    (required_channel : option string) :
  (exists b, In b (bots db) /\ Bot.token b = token) ->
  add_bot now db token bot_username bot_type owner_id required_channel
  = (Return false, db).
Proof.
  intros H. unfold add_bot, insert_into_bots.
  now rewrite (existsb_token db token H).
Qed.

Lemma add_bot_duplicate_token_witness :
  add_bot "2024-05-01T10:00:07.000002" one_bot "123:abc" "second_bot"
    "adhkar" 43 None
  = (Return false, one_bot).
Proof.
  apply add_bot_duplicate_token.
  eexists. split; [left; reflexivity | reflexivity].
Defined.

(** ** Bot.toggle_active *)

Lemma sql_not_involutive (x : Z) : x = 0 \/ x = 1 -> sql_not (sql_not x) = x.
Proof. intros [->| ->]; reflexivity. Qed.

Lemma set_active_token (b : Bot.row) (v : Z) :
  Bot.token (set_active b v) = Bot.token b.
Proof. reflexivity. Qed.

Lemma toggle_twice_rows (token : string) (t : list Bot.row) :
  (forall b, In b t -> Bot.token b = token ->
             Bot.active b = 0 \/ Bot.active b = 1) ->
  let w := fun b => String.eqb (Bot.token b) token in
  let flip := fun b => set_active b (sql_not (Bot.active b)) in
  sql_update w flip (sql_update w flip t) = t.
Proof.
  intros H w flip. unfold sql_update.
  induction t as [|b t IH]; simpl; [reflexivity|].
  rewrite IH by (intros; apply H; simpl; auto). f_equal.
  destruct (w b) eqn:E.
  - assert (Hw : w (flip b) = true) by exact E.
    rewrite Hw. unfold flip, set_active; simpl.
    rewrite sql_not_involutive.
    + now destruct b.
    + apply H; [now left|]. now apply String.eqb_eq.
  - now rewrite E.
Qed.

Lemma rowcount_update_same_key (token : string) (f : Bot.row -> Bot.row)
    (t : list Bot.row) :
  (forall b, Bot.token (f b) = Bot.token b) ->
  let w := fun b => String.eqb (Bot.token b) token in
  rowcount w (sql_update w f t) = rowcount w t.
Proof.
  intros Hf w. unfold rowcount, sql_update. f_equal.
  induction t as [|b t IH]; simpl; [reflexivity|].
  destruct (w b) eqn:E.
  - assert (Hw : w (f b) = true) by (unfold w; now rewrite Hf).
    rewrite Hw. simpl. now rewrite IH.
  - now rewrite E.
Qed.

Lemma rowcount_positive {row : Type} (w : row -> bool) (t : list row) :
  (exists r, In r t /\ w r = true) -> (0 <? rowcount w t) = true.
Proof.
  intros [r [Hin Hw]]. apply Z.ltb_lt. unfold rowcount.
  assert (In r (filter w t)) by (apply filter_In; auto).
  destruct (filter w t); simpl in *; [tauto | lia].
Qed.

Lemma rowcount_zero {row : Type} (w : row -> bool) (t : list row) :
  (forall r, In r t -> w r = false) -> rowcount w t = 0.
Proof.
  intros H. unfold rowcount. fold (sql_select w t).
  now rewrite select_none.
Qed.

(** C10: when the rows of the token have active 0 or 1, two calls of
    [toggle_bot_active] give back the store they started from, both
    returning True when the token has a row; with no such row the call
    returns False and changes nothing. *)
Theorem toggle_bot_active_twice (db : database) (token : string) :
  (forall b, In b (bots db) -> Bot.token b = token ->
             Bot.active b = 0 \/ Bot.active b = 1) ->
  let r1 := toggle_bot_active db token in
  let r2 := toggle_bot_active (snd r1) token in
  snd r2 = db
  /\ ((exists b, In b (bots db) /\ Bot.token b = token) ->
      fst r1 = true /\ fst r2 = true)
  /\ ((forall b, In b (bots db) -> Bot.token b <> token) ->
      fst r1 = false /\ snd r1 = db).
Proof.
  intros H r1 r2. split; [|split].
  - unfold r2, r1, toggle_bot_active; simpl. unfold set_bots; simpl.
    rewrite (toggle_twice_rows token (bots db) H). now destruct db.
  - intros [b [Hin Ht]].
    assert (Hpos : (0 <? rowcount (fun b => String.eqb (Bot.token b) token)
                           (bots db)) = true).
    { apply rowcount_positive. exists b. split; auto.
      now apply String.eqb_eq. }
    split; [exact Hpos|].
    unfold r2, r1, toggle_bot_active; simpl.
    rewrite rowcount_update_same_key; [exact Hpos | reflexivity].
  - intros Hno.
    assert (Hw : forall b, In b (bots db) ->
                   String.eqb (Bot.token b) token = false).
    { intros b Hb. apply String.eqb_neq. now apply Hno. }
    split.
    + unfold r1, toggle_bot_active; simpl.
      now rewrite (rowcount_zero _ _ Hw).
    + unfold r1, toggle_bot_active; simpl.
      rewrite (update_none _ _ _ Hw). now destruct db.
Qed.

Lemma toggle_bot_active_twice_witness :
  snd (toggle_bot_active (snd (toggle_bot_active one_bot "123:abc"))
         "123:abc") = one_bot
  /\ fst (toggle_bot_active one_bot "123:abc") = true
  /\ fst (toggle_bot_active one_bot "no:such") = false.
Proof.
  assert (H1 : forall b, In b (bots one_bot) -> Bot.token b = "123:abc"%string
                 -> Bot.active b = 0 \/ Bot.active b = 1).
  { intros b [<-|[]] _. right. reflexivity. }
  assert (H2 : forall b, In b (bots one_bot) -> Bot.token b = "no:such"%string
                 -> Bot.active b = 0 \/ Bot.active b = 1).
  { intros b [<-|[]] _. right. reflexivity. }
  destruct (toggle_bot_active_twice one_bot "123:abc" H1) as [A [B _]].
  destruct (toggle_bot_active_twice one_bot "no:such" H2) as [_ [_ C]].
  split; [exact A|]. split.
  - apply B. eexists. split; [left; reflexivity | reflexivity].
  - apply C. intros b [<-|[]]. discriminate.
Defined.

Lemma active_is_flag_init : active_is_flag init_database.
Proof. constructor. Qed.

Lemma active_is_flag_add_bot now db token bu bt o rc :
  active_is_flag db ->
  active_is_flag (snd (add_bot now db token bu bt o rc)).
Proof.
  unfold active_is_flag, add_bot, insert_into_bots. intros H.
  destruct (existsb _ (bots db)); simpl; auto.
  apply Forall_app. split; auto.
Qed.

Lemma active_is_flag_toggle db token :
  active_is_flag db -> active_is_flag (snd (toggle_bot_active db token)).
Proof.
  unfold active_is_flag, toggle_bot_active; simpl. intros H.
  unfold sql_update. apply Forall_map. eapply Forall_impl; [|exact H].
  intros b Hb; simpl. destruct (String.eqb _ _); auto.
  simpl. unfold sql_not. destruct (Bot.active b =? 0); auto.
Qed.

(** ** BotUser.add, ban and unban *)

Lemma users_count_after_update (token : string) (count : Z)
    (t : list Bot.row) (b : Bot.row) :
  In b (sql_update (fun b => String.eqb (Bot.token b) token)
          (fun b => set_users_count b count) t) ->
  Bot.token b = token -> Bot.users_count b = count.
Proof.
  unfold sql_update. intros Hin Ht.
  apply in_map_iff in Hin. destruct Hin as [b0 [Hb0 _]].
  destruct (String.eqb (Bot.token b0) token) eqn:E.
  - now subst b.
  - subst b0. apply String.eqb_neq in E. contradiction.
Qed.

(** C2: after [add_bot_user] every bot row of the token has users_count
    equal to the number of the token's bot_users rows with banned = 0; for
    a pair already stored the bot_users rows stay as they were; and
    [ban_bot_user] and [unban_bot_user] leave the bots table, users_count
    included, untouched. *)
Theorem add_bot_user_recounts (now : string) (db : database)
    (bot_token : string) (user_id : Z) (first_name : string)
    (username : option string) :
  let db' := add_bot_user now db bot_token user_id first_name username in
  (forall b, In b (bots db') -> Bot.token b = bot_token ->
     Bot.users_count b
     = sql_count (fun u => String.eqb (BotUser.bot_token u) bot_token
                           && (BotUser.banned u =? 0)) (bot_users db'))
  /\ ((exists u, In u (bot_users db) /\ BotUser.bot_token u = bot_token
                 /\ BotUser.user_id u = user_id) ->
      bot_users db' = bot_users db)
  /\ (forall uid, bots (ban_bot_user db bot_token uid) = bots db
                  /\ bots (unban_bot_user db bot_token uid) = bots db).
Proof.
  intros db'. split; [|split].
  - intros b Hin Ht. unfold db', add_bot_user in *.
    destruct (existsb _ (bot_users db)); simpl in *;
      eapply users_count_after_update; eauto.
  - intros [u [Hin [Ht Hu]]]. unfold db', add_bot_user.
    assert (E : existsb (fun u => String.eqb (BotUser.bot_token u) bot_token
                                  && (BotUser.user_id u =? user_id))
                  (bot_users db) = true).
    { apply existsb_exists. exists u. split; auto.
      apply andb_true_iff. split; [now apply String.eqb_eq | lia]. }
    now rewrite E.
  - intros uid. split; reflexivity.
Qed.

Lemma add_bot_user_recounts_witness :
  get_bot_by_token
    (add_bot_user "2024-05-01T10:03:00.000005"
       (ban_bot_user two_users "123:abc" 1002) "123:abc" 1001 "Ana" None)
    "123:abc"
  = Some (Bot.mk 1 "123:abc" "first_bot" "guard" 42
            "2024-05-01T10:00:00.000001" 1 None 1)
  /\ bot_users (add_bot_user "2024-05-01T10:03:00.000005"
                  (ban_bot_user two_users "123:abc" 1002) "123:abc" 1001
                  "Ana" None)
     = bot_users (ban_bot_user two_users "123:abc" 1002).
Proof.
  destruct (add_bot_user_recounts "2024-05-01T10:03:00.000005"
              (ban_bot_user two_users "123:abc" 1002) "123:abc" 1001 "Ana"
              None) as [A [B _]].
  split.
  - reflexivity.
  - apply B. eexists. split; [left; reflexivity|]. split; reflexivity.
Defined.

(** The asymmetry at work: a ban alone leaves the counter at its old
    value, one above the number of users that are not banned. *)
Example users_count_stale_after_ban :
  option_map Bot.users_count
    (get_bot_by_token (ban_bot_user two_users "123:abc" 1002) "123:abc")
  = Some 2
  /\ sql_count (fun u => String.eqb (BotUser.bot_token u) "123:abc"
                         && (BotUser.banned u =? 0))
       (bot_users (ban_bot_user two_users "123:abc" 1002)) = 1.
Proof. split; reflexivity. Qed.

(** ** Member.upsert *)

Lemma get_member_add_member (now : string) (db : database) (user_id : Z)
    (first_name : string) (username : option string) :
  get_member (add_member now db user_id first_name username) user_id
  = Some (Member.mk user_id first_name username now
            match get_member db user_id with
            | Some r => Member.bots_created r
            | None => 0
            end).
Proof.
  unfold get_member, add_member; simpl.
  rewrite select_app, select_after_delete. simpl.
  now rewrite Z.eqb_refl.
Qed.

Lemma get_member_increment (db : database) (user_id : Z) (r : Member.row) :
  get_member db user_id = Some r ->
  get_member (increment_bots_created db user_id) user_id
  = Some (Member.mk (Member.user_id r) (Member.first_name r)
            (Member.username r) (Member.joined_at r)
            (Member.bots_created r + 1)).
Proof.
  unfold get_member, increment_bots_created, sql_select, sql_update; simpl.
  induction (members db) as [|m t IH]; simpl; [discriminate|].
  destruct (Member.user_id m =? user_id) eqn:E; simpl.
  - rewrite E. simpl. now intros [= ->].
  - rewrite E. exact IH.
Qed.

(** C3: [add_member] stores the new identity fields with the counter the
    member had before (0 for a new member); after [add_member],
    [increment_bots_created] and [add_member] again the counter is one
    above that value, so 1 for a member that was new. *)
Theorem add_member_preserves_bots_created (now1 now2 : string)
    (db : database) (user_id : Z) (first_name1 first_name2 : string)
    (username1 username2 : option string) :
  let prev := match get_member db user_id with
              | Some r => Member.bots_created r
              | None => 0
              end in
  let db1 := add_member now1 db user_id first_name1 username1 in
  let db3 := add_member now2 (increment_bots_created db1 user_id) user_id
               first_name2 username2 in
  get_member db1 user_id
  = Some (Member.mk user_id first_name1 username1 now1 prev)
  /\ get_member db3 user_id
     = Some (Member.mk user_id first_name2 username2 now2 (prev + 1))
  /\ (get_member db user_id = None ->
      get_member db3 user_id
      = Some (Member.mk user_id first_name2 username2 now2 1)).
Proof.
  intros prev db1 db3.
  assert (H1 : get_member db1 user_id
               = Some (Member.mk user_id first_name1 username1 now1 prev))
    by apply get_member_add_member.
  assert (H3 : get_member db3 user_id
               = Some (Member.mk user_id first_name2 username2 now2
                         (prev + 1))).
  { unfold db3. rewrite get_member_add_member.
    now rewrite (get_member_increment _ _ _ H1). }
  split; [exact H1|]. split; [exact H3|].
  intros Hnone. rewrite H3. unfold prev. now rewrite Hnone.
Qed.

Lemma add_member_preserves_bots_created_witness :
  get_member
    (add_member "2024-05-01T11:00:00.000007"
       (increment_bots_created
          (add_member "2024-05-01T10:00:00.000006" init_database 42 "Ana"
             None) 42)
       42 "Ana Maria" (Some "ana"%string)) 42
  = Some (Member.mk 42 "Ana Maria" (Some "ana"%string)
            "2024-05-01T11:00:00.000007" 1).
Proof.
  apply (add_member_preserves_bots_created "2024-05-01T10:00:00.000006"
           "2024-05-01T11:00:00.000007" init_database 42 "Ana" "Ana Maria"
           None (Some "ana"%string)).
  reflexivity.
Defined.

(** ** Guard counters *)

Lemma guard_key_bump bot_token chat_id admin_id r :
  guard_key bot_token chat_id admin_id (bump r)
  = guard_key bot_token chat_id admin_id r.
Proof. reflexivity. Qed.

Lemma guard_key_own bot_token chat_id admin_id n :
  guard_key bot_token chat_id admin_id
    (GuardData.mk bot_token chat_id admin_id n) = true.
Proof.
  unfold guard_key; simpl. now rewrite String.eqb_refl, !Z.eqb_refl.
Qed.

Lemma select_update_bump (w : GuardData.row -> bool)
    (t : list GuardData.row) :
  (forall r, w (bump r) = w r) ->
  sql_select w (sql_update w bump t) = map bump (sql_select w t).
Proof.
  intros Hw. unfold sql_select, sql_update.
  induction t as [|r t IH]; simpl; [reflexivity|].
  destruct (w r) eqn:E.
  - rewrite Hw, E. simpl. now rewrite IH.
  - rewrite E. exact IH.
Qed.

Lemma select_nil_existsb {row : Type} (w : row -> bool) (t : list row) :
  sql_select w t = [] -> existsb w t = false.
Proof.
  unfold sql_select. induction t as [|r t IH]; simpl; [reflexivity|].
  destruct (w r); [discriminate | exact IH].
Qed.

Lemma select_cons_existsb {row : Type} (w : row -> bool) (t : list row)
    (r : row) (rs : list row) :
  sql_select w t = r :: rs -> existsb w t = true.
Proof.
  intros H. apply existsb_exists. exists r.
  apply filter_In. unfold sql_select in H. rewrite H. now left.
Qed.

(** C5: [increment_guard_kick] on a key without a row adds the row with
    kick_count 1 and returns 1; in every case the stored count is one more
    than what [get_guard_kick_count] read before (0 without a row), and
    the value returned is the stored count; [get_guard_kick_count] is 0
    without a row, and 0 after [reset_guard_kicks]. *)
Theorem increment_guard_kick_counts (db : database) (bot_token : string)
    (chat_id admin_id : Z) :
  let w := guard_key bot_token chat_id admin_id in
  let r := increment_guard_kick db bot_token chat_id admin_id in
  (sql_select w (guard_data db) = [] ->
   guard_data (snd r)
   = guard_data db ++ [GuardData.mk bot_token chat_id admin_id 1]
   /\ fst r = 1)
  /\ get_guard_kick_count (snd r) bot_token chat_id admin_id
     = get_guard_kick_count db bot_token chat_id admin_id + 1
  /\ fst r = get_guard_kick_count (snd r) bot_token chat_id admin_id
  /\ (sql_select w (guard_data db) = [] ->
      get_guard_kick_count db bot_token chat_id admin_id = 0)
  /\ get_guard_kick_count
       (reset_guard_kicks db bot_token chat_id admin_id)
       bot_token chat_id admin_id = 0.
Proof.
  intros w r.
  assert (Habsent : sql_select w (guard_data db) = [] ->
            guard_data (snd r)
            = guard_data db ++ [GuardData.mk bot_token chat_id admin_id 1]
            /\ fst r = 1
            /\ get_guard_kick_count (snd r) bot_token chat_id admin_id = 1).
  { intros Hnil. unfold r, increment_guard_kick, get_guard_kick_count.
    fold w. rewrite (select_nil_existsb _ _ Hnil). simpl.
    rewrite select_app, Hnil. simpl.
    assert (Hown : w (GuardData.mk bot_token chat_id admin_id 1) = true)
      by apply guard_key_own.
    rewrite Hown. simpl. auto. }
  split; [|split; [|split; [|split]]].
  - intros Hnil. destruct (Habsent Hnil) as [A [B _]]. auto.
  - destruct (sql_select w (guard_data db)) as [|r0 rs] eqn:Hsel.
    + destruct (Habsent eq_refl) as [_ [_ C]]. rewrite C.
      unfold get_guard_kick_count. fold w. now rewrite Hsel.
    + unfold r, increment_guard_kick, get_guard_kick_count. fold w.
      rewrite (select_cons_existsb _ _ _ _ Hsel). simpl.
      rewrite select_update_bump by (intros; apply guard_key_bump).
      now rewrite Hsel.
  - unfold r, increment_guard_kick, get_guard_kick_count. fold w. simpl.
    destruct (fetchone _) eqn:E; [reflexivity|].
    destruct (existsb w (guard_data db)) eqn:Hex.
    + exfalso. rewrite select_update_bump in E
        by (intros; apply guard_key_bump).
      apply existsb_exists in Hex. destruct Hex as [x [Hin Hx]].
      assert (Hx' : In x (sql_select w (guard_data db)))
        by (apply filter_In; auto).
      destruct (sql_select w (guard_data db)); [contradiction|discriminate].
    + exfalso. rewrite select_app in E. simpl in E.
      assert (Hown : w (GuardData.mk bot_token chat_id admin_id 1) = true)
        by apply guard_key_own.
      rewrite Hown in E.
      destruct (sql_select w (guard_data db)); discriminate.
  - intros Hnil. unfold get_guard_kick_count. fold w. now rewrite Hnil.
  - unfold get_guard_kick_count, reset_guard_kicks; simpl. fold w.
    now rewrite select_after_delete.
Qed.

Lemma increment_guard_kick_counts_witness :
  fst (increment_guard_kick init_database "123:abc" (-100500) 77) = 1
  /\ get_guard_kick_count kicked_twice "123:abc" (-100500) 77 = 2
  /\ get_guard_kick_count init_database "123:abc" (-100500) 77 = 0.
Proof.
  destruct (increment_guard_kick_counts init_database "123:abc" (-100500) 77)
    as [A [_ [_ [D _]]]].
  destruct (increment_guard_kick_counts
              (snd (increment_guard_kick init_database "123:abc" (-100500)
                      77)) "123:abc" (-100500) 77) as [_ [B _]].
  split; [apply A; reflexivity|]. split; [|apply D; reflexivity].
  unfold kicked_twice. rewrite B. reflexivity.
Defined.

(** ** Memory.clear *)

(** With a user_id other than 0, [clear_memory] deletes the rows of the
    pair and no other row; with no user_id it deletes the rows of the
    bot. *)
Lemma clear_memory_partition (db : database) (bot_token : string)
    (user_id : Z) :
  user_id <> 0 ->
  remember (clear_memory db bot_token (Some user_id))
  = sql_delete (in_partition bot_token user_id) (remember db).
Proof.
  intros H. unfold clear_memory, truthy.
  apply Z.eqb_neq in H. rewrite H. reflexivity.
Qed.

Lemma clear_memory_whole_bot (db : database) (bot_token : string) :
  remember (clear_memory db bot_token None)
  = sql_delete (fun r => String.eqb (Remember.bot_token r) bot_token)
      (remember db).
Proof. reflexivity. Qed.

(** C8 at user_id = 0: the test [if user_id] takes 0 for a missing
    argument, and the rows of user 1001 of the same bot are deleted with
    those of user 0. *)
Theorem clear_memory_user_zero_clears_bot :
  sql_select (in_partition "123:abc" 1001) (remember two_partitions)
  = [Remember.mk 2 "123:abc" 1001 "user" "salam"
       "2024-05-01T12:00:01.000009"]
  /\ remember (clear_memory two_partitions "123:abc" (Some 0)) = []
  /\ remember (clear_memory two_partitions "123:abc" (Some 0))
     = remember (clear_memory two_partitions "123:abc" None).
Proof. repeat split. Qed.

(** ** Timestamps *)

Lemma ltb_compare (s1 s2 : string) :
  String.ltb s1 s2 = true <-> String.compare s1 s2 = Lt.
Proof.
  unfold String.ltb. destruct (String.compare s1 s2); split; congruence.
Qed.

Lemma compare_lt_trans (s1 s2 s3 : string) :
  String.compare s1 s2 = Lt -> String.compare s2 s3 = Lt ->
  String.compare s1 s3 = Lt.
Proof.
  revert s2 s3.
  induction s1 as [|a s1 IH]; intros [|b s2] [|c s3]; simpl;
    try congruence.
  unfold Ascii.compare.
  destruct (N.compare_spec (Ascii.N_of_ascii a) (Ascii.N_of_ascii b))
    as [Hab|Hab|Hab]; try discriminate;
  destruct (N.compare_spec (Ascii.N_of_ascii b) (Ascii.N_of_ascii c))
    as [Hbc|Hbc|Hbc]; try discriminate; intros H1 H2.
  - rewrite Hab, Hbc, N.compare_refl. eauto.
  - rewrite Hab. now apply N.compare_lt_iff in Hbc as ->.
  - rewrite <- Hbc. now apply N.compare_lt_iff in Hab as ->.
  - assert (Hac : (Ascii.N_of_ascii a < Ascii.N_of_ascii c)%N) by lia.
    now apply N.compare_lt_iff in Hac as ->.
Qed.

Lemma earlier_trans (s1 s2 s3 : string) :
  earlier s1 s2 -> earlier s2 s3 -> earlier s1 s3.
Proof.
  unfold earlier. rewrite !ltb_compare. apply compare_lt_trans.
Qed.

Lemma earlier_not_later (s1 s2 : string) :
  earlier s1 s2 -> String.ltb s2 s1 = false.
Proof.
  unfold earlier. rewrite ltb_compare. intros H.
  unfold String.ltb. rewrite String.compare_antisym, H. reflexivity.
Qed.

Lemma earlier_irrefl (s : string) : ~ earlier s s.
Proof.
  intros H. pose proof (earlier_not_later _ _ H) as H'.
  unfold earlier in H. congruence.
Qed.

Lemma earlier_neq (s1 s2 : string) :
  earlier s1 s2 -> String.eqb s1 s2 = false.
Proof.
  intros H. apply String.eqb_neq. intros ->. exact (earlier_irrefl _ H).
Qed.

Lemma not_earlier_cases (s1 s2 : string) :
  String.ltb s1 s2 = false -> s1 = s2 \/ earlier s2 s1.
Proof.
  unfold earlier, String.ltb. rewrite (String.compare_antisym s2 s1).
  destruct (String.compare s1 s2) eqn:E; simpl; try discriminate; auto.
  left. now apply String.compare_eq_iff.
Qed.

(** ** ORDER BY created_at DESC *)

Lemma precedes_not_newer tie x y :
  precedes tie x y = true -> not_newer x y.
Proof.
  unfold precedes, not_newer. intros H.
  apply orb_true_iff in H. destruct H as [H|H].
  - now apply earlier_not_later.
  - apply andb_true_iff in H. destruct H as [H _].
    apply String.eqb_eq in H. rewrite H.
    destruct (String.ltb _ _) eqn:E; auto.
    exfalso. exact (earlier_irrefl _ E).
Qed.

Lemma not_precedes_not_newer tie x y :
  precedes tie x y = false -> not_newer y x.
Proof.
  unfold precedes, not_newer. intros H.
  apply orb_false_iff in H. tauto.
Qed.

Lemma insert_desc_perm tie x l : Permutation (x :: l) (insert_desc tie x l).
Proof.
  induction l as [|y l IH]; simpl; [reflexivity|].
  destruct (precedes tie x y); [reflexivity|].
  rewrite perm_swap. now constructor.
Qed.

(** The result of ORDER BY holds the rows it was given, each once. *)
Lemma order_by_perm tie rows :
  Permutation rows (order_by_created_at_desc tie rows).
Proof.
  induction rows as [|x l IH]; simpl; [constructor|].
  rewrite <- insert_desc_perm. now constructor.
Qed.

Lemma order_by_In tie rows r :
  In r (order_by_created_at_desc tie rows) <-> In r rows.
Proof.
  split; apply Permutation_in;
    [symmetry|]; apply order_by_perm.
Qed.

Lemma order_by_length tie rows :
  length (order_by_created_at_desc tie rows) = length rows.
Proof. symmetry. apply Permutation_length, order_by_perm. Qed.

Lemma insert_desc_hd tie x l a :
  HdRel not_newer a l -> not_newer a x ->
  HdRel not_newer a (insert_desc tie x l).
Proof.
  intros Hl Hx. destruct l as [|y l]; simpl.
  - now constructor.
  - destruct (precedes tie x y); constructor; auto.
    now inversion Hl.
Qed.

Lemma insert_desc_sorted tie x l :
  Sorted not_newer l -> Sorted not_newer (insert_desc tie x l).
Proof.
  induction l as [|y l IH]; simpl; intros H.
  - repeat constructor.
  - destruct (precedes tie x y) eqn:E.
    + constructor; auto. constructor.
      now apply (precedes_not_newer tie).
    + inversion H; subst. constructor; auto.
      apply insert_desc_hd; auto.
      now apply (not_precedes_not_newer tie).
Qed.

(** Whatever the tie-break, the result is in descending created_at
    order. *)
Lemma order_by_sorted tie rows :
  Sorted not_newer (order_by_created_at_desc tie rows).
Proof.
  induction rows as [|x l IH]; simpl; [constructor|].
  now apply insert_desc_sorted.
Qed.

(** A row newer than all the others comes first. *)
Lemma order_by_snoc_newest tie l x :
  (forall y, In y l ->
     earlier (Remember.created_at y) (Remember.created_at x)) ->
  order_by_created_at_desc tie (l ++ [x])
  = x :: order_by_created_at_desc tie l.
Proof.
  induction l as [|a l IH]; simpl; intros H; [reflexivity|].
  rewrite IH by auto. simpl.
  assert (Ha : earlier (Remember.created_at a) (Remember.created_at x))
    by auto.
  unfold precedes.
  rewrite (earlier_not_later _ _ Ha), (earlier_neq _ _ Ha). reflexivity.
Qed.

(** Rows stored in strictly increasing created_at order, all newer than
    the rows before them, come out newest first. *)
Lemma order_by_app_increasing tie l n :
  StronglySorted earlier (map Remember.created_at n) ->
  (forall y z, In y l -> In z n ->
     earlier (Remember.created_at y) (Remember.created_at z)) ->
  order_by_created_at_desc tie (l ++ n)
  = rev n ++ order_by_created_at_desc tie l.
Proof.
  induction n as [|x n IH] using rev_ind; intros Hs Hl.
  - now rewrite app_nil_r.
  - rewrite app_assoc, order_by_snoc_newest.
    + rewrite rev_app_distr. simpl. f_equal. apply IH.
      * rewrite map_app in Hs. clear - Hs.
        induction (map Remember.created_at n) as [|k ks IHk]; simpl in *;
          [constructor|].
        inversion Hs; subst. constructor; auto.
        rewrite Forall_app in H2. tauto.
      * intros y z Hy Hz. apply Hl; auto. apply in_or_app. auto.
    + intros y Hy. apply in_app_or in Hy. destruct Hy as [Hy|Hy].
      * apply Hl; auto. apply in_or_app. right. now left.
      * rewrite map_app in Hs. clear - Hs Hy.
        induction n as [|k ks IHk]; simpl in *; [contradiction|].
        inversion Hs; subst. destruct Hy as [->|Hy]; auto.
        rewrite Forall_app in H2. destruct H2 as [_ H2].
        now inversion H2.
Qed.

(** ** The retention window of add_memory *)

Lemma kept_In keep r : kept keep r = true <-> In (Remember.id r) keep.
Proof.
  unfold kept, not_in. rewrite negb_involutive, existsb_exists.
  split.
  - intros [i [Hi E]]. apply Z.eqb_eq in E. now subst.
  - intros H. exists (Remember.id r). split; auto. apply Z.eqb_refl.
Qed.

Lemma kept_false keep r : ~ In (Remember.id r) keep -> kept keep r = false.
Proof.
  intros H. destruct (kept keep r) eqn:E; auto.
  apply kept_In in E. contradiction.
Qed.

Lemma next_rowid_fresh seq ids i : In i ids -> i < next_rowid seq ids.
Proof.
  unfold next_rowid. induction ids as [|j ids IH]; simpl; [tauto|].
  intros [->|H]; [lia|]. specialize (IH H). lia.
Qed.

Lemma next_rowid_above seq ids : seq < next_rowid seq ids.
Proof.
  unfold next_rowid. induction ids as [|j ids IH]; simpl; lia.
Qed.

Lemma lastn_snoc {A : Type} (n : nat) (l : list A) (x : A) :
  lastn (S n) (l ++ [x]) = lastn n l ++ [x].
Proof.
  unfold lastn. rewrite length_app. simpl.
  replace (length l + 1 - S n)%nat with (length l - n)%nat by lia.
  rewrite skipn_app.
  replace (length l - n - length l)%nat with 0%nat by lia. reflexivity.
Qed.

Lemma lastn_length {A : Type} (n : nat) (l : list A) :
  length (lastn n l) = Nat.min n (length l).
Proof. unfold lastn. rewrite length_skipn. lia. Qed.

Lemma lastn_lastn {A : Type} (m n : nat) (l : list A) :
  (m <= n)%nat -> lastn m (lastn n l) = lastn m l.
Proof.
  intros H. unfold lastn. rewrite length_skipn, skipn_skipn.
  f_equal. lia.
Qed.

Lemma lastn_map {A B : Type} (f : A -> B) (n : nat) (l : list A) :
  map f (lastn n l) = lastn n (map f l).
Proof. unfold lastn. now rewrite skipn_map, length_map. Qed.

Lemma lastn_all {A : Type} (n : nat) (l : list A) :
  (length l <= n)%nat -> lastn n l = l.
Proof.
  intros H. unfold lastn.
  replace (length l - n)%nat with 0%nat by lia. reflexivity.
Qed.

Lemma lastn_In {A : Type} (n : nat) (l : list A) (x : A) :
  In x (lastn n l) -> In x l.
Proof.
  unfold lastn. intros H.
  rewrite <- (firstn_skipn (length l - n) l). apply in_or_app. now right.
Qed.

Lemma firstn_In {A : Type} (n : nat) (l : list A) (x : A) :
  In x (firstn n l) -> In x l.
Proof.
  intros H.
  rewrite <- (firstn_skipn n l). apply in_or_app. now left.
Qed.

Lemma ids_disjoint {A B : Type} (f : A -> B) (l1 l2 : list A) (a b : A) :
  NoDup (map f (l1 ++ l2)) -> In a l1 -> In b l2 -> f a <> f b.
Proof.
  induction l1 as [|c l1 IH]; simpl; [tauto|].
  intros Hnd [->|Ha] Hb E; inversion Hnd; subst.
  - apply H1. rewrite E. apply in_map, in_or_app. now right.
  - exact (IH H2 Ha Hb E).
Qed.

(** A DELETE or a WHERE keeps the ids of remember distinct. *)
Lemma ids_unique_filter (w : Remember.row -> bool)
    (t : list Remember.row) :
  NoDup (map Remember.id t) -> NoDup (map Remember.id (filter w t)).
Proof.
  intros H. induction t as [|r t IH]; simpl; [constructor|].
  apply NoDup_cons_iff in H. destruct H as [Hr Ht].
  destruct (w r); simpl; [|now apply IH].
  apply NoDup_cons; [|now apply IH].
  intros Hin. apply Hr.
  apply in_map_iff in Hin. destruct Hin as [r' [E Hr']].
  apply filter_In in Hr'. rewrite <- E. apply in_map. tauto.
Qed.

Lemma filter_pruned {A : Type} (p q : A -> bool) (l : list A) :
  filter p (filter (fun r => negb (p r && q r)) l)
  = filter (fun r => negb (q r)) (filter p l).
Proof.
  induction l as [|a l IH]; simpl; [reflexivity|].
  destruct (p a) eqn:Ep, (q a) eqn:Eq; simpl;
    rewrite ?Ep, ?Eq; simpl; now rewrite IH.
Qed.

Lemma StronglySorted_app_l {A : Type} (R : A -> A -> Prop) (l1 l2 : list A) :
  StronglySorted R (l1 ++ l2) -> StronglySorted R l1.
Proof.
  induction l1 as [|a l1 IH]; simpl; intros H; [constructor|].
  inversion H; subst. constructor; auto.
  rewrite Forall_app in H3. tauto.
Qed.

Lemma StronglySorted_app_r {A : Type} (R : A -> A -> Prop) (l1 l2 : list A) :
  StronglySorted R (l1 ++ l2) -> StronglySorted R l2.
Proof.
  induction l1 as [|a l1 IH]; simpl; intros H; auto.
  inversion H; subst. auto.
Qed.

Lemma StronglySorted_app_lt {A : Type} (R : A -> A -> Prop)
    (l1 l2 : list A) (a b : A) :
  StronglySorted R (l1 ++ l2) -> In a l1 -> In b l2 -> R a b.
Proof.
  induction l1 as [|c l1 IH]; simpl; [tauto|].
  intros H [->|Ha] Hb; inversion H; subst.
  - rewrite Forall_forall in H3. apply H3, in_or_app. now right.
  - auto.
Qed.

Lemma StronglySorted_lastn {A : Type} (R : A -> A -> Prop) (n : nat)
    (l : list A) :
  StronglySorted R l -> StronglySorted R (lastn n l).
Proof.
  intros H. unfold lastn.
  rewrite <- (firstn_skipn (length l - n) l) in H.
  exact (StronglySorted_app_r _ _ _ H).
Qed.

(** The pruning on a pair whose newest rows [n ++ [x]] were stored in
    strictly increasing created_at order, above older rows [o]: the new
    row and the 19 rows before it stay; of [o] nothing stays once [n] has
    19 rows. *)
Lemma prune_window tie (o n : list Remember.row) (x : Remember.row) :
  NoDup (map Remember.id ((o ++ n) ++ [x])) ->
  StronglySorted earlier (map Remember.created_at (n ++ [x])) ->
  (forall y z, In y o -> In z (n ++ [x]) ->
     earlier (Remember.created_at y) (Remember.created_at z)) ->
  let keep :=
    map Remember.id
      (sql_limit 20 (order_by_created_at_desc tie ((o ++ n) ++ [x]))) in
  filter (kept keep) ((o ++ n) ++ [x])
  = filter (kept keep) o ++ lastn 19 n ++ [x]
  /\ ((19 <= length n)%nat -> filter (kept keep) o = []).
Proof.
  intros Hnd Hs Ho keep.
  assert (Hkeep : keep = Remember.id x
                    :: map Remember.id (rev (lastn 19 n))
                    ++ map Remember.id
                         (firstn (19 - length n)
                            (order_by_created_at_desc tie o))).
  { unfold keep. rewrite <- app_assoc.
    rewrite (order_by_app_increasing tie o (n ++ [x]) Hs Ho).
    rewrite rev_app_distr.
    change (rev [x] ++ rev n) with (x :: rev n). rewrite <- app_comm_cons.
    change (sql_limit 20 (x :: ?l)) with (x :: firstn 19 l).
    rewrite firstn_app, firstn_rev, length_rev. cbn [map].
    rewrite map_app. reflexivity. }
  assert (Hx : kept keep x = true).
  { apply kept_In. rewrite Hkeep. now left. }
  assert (Hon : NoDup (map Remember.id (o ++ n))).
  { rewrite map_app in Hnd. exact (NoDup_app_remove_r _ _ Hnd). }
  assert (Hn : NoDup (map Remember.id n)).
  { rewrite map_app in Hon. exact (NoDup_app_remove_l _ _ Hon). }
  assert (Hlast : forall r, In r (lastn 19 n) -> kept keep r = true).
  { intros r Hr. apply kept_In. rewrite Hkeep. right.
    apply in_or_app. left. apply in_map. now apply in_rev in Hr. }
  assert (Hcases : forall r, In (Remember.id r) keep ->
            Remember.id r = Remember.id x
            \/ (exists b, In b (lastn 19 n)
                          /\ Remember.id b = Remember.id r)
            \/ (exists c, In c o /\ (length n < 19)%nat
                          /\ Remember.id c = Remember.id r)).
  { intros r Hr. rewrite Hkeep in Hr. destruct Hr as [Hr|Hr]; auto.
    right. apply in_app_or in Hr. destruct Hr as [Hr|Hr];
      apply in_map_iff in Hr; destruct Hr as [b [E Hb]].
    - left. exists b. split; auto. now apply in_rev.
    - right. exists b. split; [|split; auto].
      + apply firstn_In in Hb. now apply order_by_In in Hb.
      + destruct (19 - length n)%nat eqn:E19; [contradiction | lia]. }
  assert (Hfirst : forall r, In r (firstn (length n - 19) n) ->
                     kept keep r = false).
  { intros r Hr. apply kept_false. intros Hin.
    assert (Hrn : In r n) by exact (firstn_In _ _ _ Hr).
    destruct (Hcases r Hin) as [E|[[b [Hb E]]|[c [Hc [Hlt E]]]]].
    - apply (ids_disjoint Remember.id (o ++ n) [x] r x Hnd); auto.
      + apply in_or_app; auto.
      + now left.
    - rewrite <- (firstn_skipn (length n - 19) n) in Hn.
      apply (ids_disjoint Remember.id _ _ r b Hn); auto.
    - apply (ids_disjoint Remember.id o n c r Hon); auto. }
  split.
  - rewrite !filter_app. simpl. rewrite Hx. rewrite <- app_assoc.
    f_equal. f_equal.
    rewrite <- (firstn_skipn (length n - 19) n) at 1.
    rewrite filter_app.
    fold (sql_select (kept keep) (firstn (length n - 19) n)).
    rewrite (select_none _ _ Hfirst). simpl.
    apply select_all. exact Hlast.
  - intros Hlen. apply select_none. intros r Hr. apply kept_false.
    intros Hin.
    destruct (Hcases r Hin) as [E|[[b [Hb E]]|[c [Hc [Hlt E]]]]].
    + apply (ids_disjoint Remember.id (o ++ n) [x] r x Hnd); auto.
      * apply in_or_app; auto.
      * now left.
    + apply (ids_disjoint Remember.id o n r b Hon); auto.
      exact (lastn_In _ _ _ Hb).
    + lia.
Qed.

Section Window.
Variable tie : tie_break.
Variables (bot_token : string) (user_id : Z).

Lemma in_partition_new_row db now role content :
  in_partition bot_token user_id
    (new_row bot_token user_id db now role content) = true.
Proof.
  unfold in_partition; simpl. now rewrite String.eqb_refl, Z.eqb_refl.
Qed.

(** The pair after [add_memory]: its rows before the call and the new
    row, without those that the DELETE removes. *)
Lemma add_memory_partition db now role content :
  let x := new_row bot_token user_id db now role content in
  let p := partition_of bot_token user_id db in
  partition_of bot_token user_id
    (add_memory tie now db bot_token user_id role content)
  = filter
      (kept (map Remember.id
               (sql_limit 20 (order_by_created_at_desc tie (p ++ [x])))))
      (p ++ [x]).
Proof.
  intros x p. unfold partition_of, add_memory; simpl.
  fold (new_row bot_token user_id db now role content). fold x.
  unfold sql_select, sql_delete.
  rewrite filter_pruned. rewrite filter_app. simpl.
  assert (Hx : in_partition bot_token user_id x = true)
    by apply in_partition_new_row.
  rewrite Hx. reflexivity.
Qed.

Lemma add_memory_ids_NoDup db now role content :
  NoDup (map Remember.id (remember db)) ->
  let x := new_row bot_token user_id db now role content in
  NoDup (map Remember.id (remember db) ++ [Remember.id x])
  /\ NoDup (map Remember.id
              (remember
                 (add_memory tie now db bot_token user_id role content))).
Proof.
  intros H x.
  assert (H1 : NoDup (map Remember.id (remember db) ++ [Remember.id x])).
  { apply NoDup_app; [exact H| |].
    - repeat constructor. simpl. tauto.
    - intros i Hi [<-|[]]. apply next_rowid_fresh with
        (seq := seq_remember (sequences db)) in Hi. simpl in Hi. lia. }
  split; [exact H1|].
  unfold add_memory; simpl.
  fold (new_row bot_token user_id db now role content). fold x.
  unfold sql_delete. apply ids_unique_filter.
  now rewrite map_app.
Qed.
End Window.

Lemma created_at_to_append (l : list Remember.row) :
  map Remember.created_at l = map at_time (map to_append l).
Proof. rewrite map_map. reflexivity. Qed.

Section WindowInvariant.
Variable tie : tie_break.
Variables (bot_token : string) (user_id : Z).

Lemma window_inv_step db done all e :
  window_inv bot_token user_id db done all ->
  StronglySorted earlier (map at_time (done ++ [e])) ->
  (forall a, In a (done ++ [e]) -> In a all) ->
  window_inv bot_token user_id
    (add_memory tie (at_time e) db bot_token user_id (with_role e)
       (with_content e))
    (done ++ [e]) all.
Proof.
  intros [Hnd [o [n [Hp [Hn [Ho Hfull]]]]]] Hs Hall.
  set (x := new_row bot_token user_id db (at_time e) (with_role e)
              (with_content e)).
  assert (Hxe : to_append x = e) by (destruct e; reflexivity).
  destruct (add_memory_ids_NoDup tie bot_token user_id db (at_time e)
              (with_role e) (with_content e) Hnd) as [Hnd1 Hnd2].
  fold x in Hnd1.
  assert (Hnx : map to_append (n ++ [x]) = lastn 21 (done ++ [e])).
  { rewrite map_app, Hn, lastn_snoc. simpl. now rewrite Hxe. }
  assert (Hin : forall z, In z (n ++ [x]) -> In (to_append z) all).
  { intros z Hz. apply Hall. apply (lastn_In 21). rewrite <- Hnx.
    now apply in_map. }
  assert (Hpx : NoDup (map Remember.id ((o ++ n) ++ [x]))).
  { rewrite <- Hp.
    assert (E : partition_of bot_token user_id db ++ [x]
                = filter (in_partition bot_token user_id)
                    (remember db ++ [x])).
    { rewrite filter_app. simpl. unfold x.
      now rewrite in_partition_new_row. }
    rewrite E. apply ids_unique_filter. now rewrite map_app. }
  assert (Hsx : StronglySorted earlier
                  (map Remember.created_at (n ++ [x]))).
  { rewrite created_at_to_append, Hnx, lastn_map.
    now apply StronglySorted_lastn. }
  assert (Hox : forall y z, In y o -> In z (n ++ [x]) ->
            earlier (Remember.created_at y) (Remember.created_at z)).
  { intros y z Hy Hz. apply (Ho y (to_append z) Hy). now apply Hin. }
  destruct (prune_window tie o n x Hpx Hsx Hox) as [Hprune Hdrop].
  split; [exact Hnd2|].
  eexists. exists (lastn 19 n ++ [x]). split; [|split; [|split]].
  - rewrite add_memory_partition. fold x. rewrite Hp. exact Hprune.
  - rewrite map_app, lastn_map, Hn, lastn_lastn, lastn_snoc by lia.
    simpl. now rewrite Hxe.
  - intros y a Hy. apply filter_In in Hy. apply Ho. tauto.
  - intros Hlen. apply Hdrop.
    assert (Hl : length (map to_append n) = length n)
      by apply length_map.
    rewrite Hn, lastn_length in Hl.
    rewrite length_app in Hlen. simpl in Hlen. lia.
Qed.

Lemma add_memories_inv entries : forall db done all,
  all = done ++ entries ->
  StronglySorted earlier (map at_time all) ->
  window_inv bot_token user_id db done all ->
  window_inv bot_token user_id
    (add_memories tie db bot_token user_id entries) all all.
Proof.
  induction entries as [|e es IH]; intros db done all Hall Hs Hinv.
  - simpl. rewrite app_nil_r in Hall. now subst.
  - simpl. assert (Hall' : all = (done ++ [e]) ++ es)
      by (rewrite <- app_assoc; exact Hall).
    apply (IH _ (done ++ [e]) all Hall' Hs).
    apply window_inv_step; auto.
    + rewrite Hall', map_app in Hs.
      exact (StronglySorted_app_l _ _ _ Hs).
    + intros a Ha. rewrite Hall'. apply in_or_app. now left.
Qed.

(** Appending entries whose timestamps strictly increase, to a pair whose
    stored rows are all older: the pair ends with the rows of the last
    20 entries (of all of them when fewer than 20 are appended to an
    empty pair), in the order of the appends. *)
Lemma add_memories_window db entries :
  remember_ids_unique db ->
  (forall y a, In y (partition_of bot_token user_id db) ->
     In a entries -> earlier (Remember.created_at y) (at_time a)) ->
  StronglySorted earlier (map at_time entries) ->
  (20 <= length entries)%nat ->
  map to_append
    (partition_of bot_token user_id
       (add_memories tie db bot_token user_id entries))
  = lastn 20 entries.
Proof.
  intros Hnd Hold Hs Hlen.
  assert (Hinv : window_inv bot_token user_id db [] entries).
  { split; [exact Hnd|].
    exists (partition_of bot_token user_id db), [].
    rewrite app_nil_r. repeat split; auto. simpl. lia. }
  destruct (add_memories_inv entries db [] entries eq_refl Hs Hinv)
    as [_ [o [n [Hp [Hn [_ Hfull]]]]]].
  rewrite Hp, (Hfull Hlen). exact Hn.
Qed.

Lemma get_memory_of_window db l :
  map to_append (partition_of bot_token user_id db) = l ->
  StronglySorted earlier (map at_time l) ->
  (length l <= 20)%nat ->
  get_memory tie db bot_token user_id 20 = map message_of l.
Proof.
  intros Hp Hs Hlen. unfold get_memory.
  fold (partition_of bot_token user_id db).
  set (n := partition_of bot_token user_id db) in *.
  assert (Hord : order_by_created_at_desc tie n = rev n).
  { rewrite <- (app_nil_r (rev n)).
    apply (order_by_app_increasing tie [] n).
    - now rewrite created_at_to_append, Hp.
    - intros y z []. }
  rewrite Hord.
  change (sql_limit 20 (rev n)) with (firstn 20 (rev n)).
  rewrite firstn_all2.
  - rewrite rev_involutive, <- Hp, map_map. reflexivity.
  - rewrite length_rev, <- (length_map to_append), Hp. exact Hlen.
Qed.
End WindowInvariant.

Lemma Sorted_earlier_strong (l : list string) :
  Sorted earlier l -> StronglySorted earlier l.
Proof.
  apply Sorted_StronglySorted. intros a b c. apply earlier_trans.
Qed.

(** ** The size of the window, whatever the clock does *)

Lemma id_injective (l : list Remember.row) (a b : Remember.row) :
  NoDup (map Remember.id l) -> In a l -> In b l ->
  Remember.id a = Remember.id b -> a = b.
Proof.
  induction l as [|c l IH]; simpl; [tauto|].
  intros Hnd Ha Hb E. apply NoDup_cons_iff in Hnd. destruct Hnd as [Hc Hl].
  destruct Ha as [->|Ha], Hb as [->|Hb]; auto.
  - exfalso. apply Hc. rewrite E. now apply in_map.
  - exfalso. apply Hc. rewrite <- E. now apply in_map.
Qed.

Lemma firstn_NoDup {A : Type} (n : nat) (l : list A) :
  NoDup l -> NoDup (firstn n l).
Proof.
  intros H. rewrite <- (firstn_skipn n l) in H.
  exact (NoDup_app_remove_r _ _ H).
Qed.

(** Deleting by id what is outside a selection [k] of the rows leaves
    the rows of [k]. *)
Lemma kept_rows_perm (l k : list Remember.row) :
  NoDup (map Remember.id l) -> NoDup k -> incl k l ->
  Permutation (filter (kept (map Remember.id k)) l) k.
Proof.
  intros Hl Hk Hincl. apply NoDup_Permutation; auto.
  - apply NoDup_filter. exact (NoDup_map_inv _ _ Hl).
  - intros r. rewrite filter_In, kept_In. split.
    + intros [Hr Hid]. apply in_map_iff in Hid.
      destruct Hid as [r' [E Hr']].
      assert (r' = r) by (apply (id_injective l); auto).
      now subst.
    + intros Hr. split; [now apply Hincl | now apply in_map].
Qed.

Lemma partition_with_new_row bot_token user_id db now role content :
  let x := new_row bot_token user_id db now role content in
  remember_ids_unique db ->
  NoDup (map Remember.id (partition_of bot_token user_id db ++ [x])).
Proof.
  intros x Hnd.
  destruct (add_memory_ids_NoDup tie_scan_order bot_token user_id db now
              role content Hnd) as [H _].
  assert (E : partition_of bot_token user_id db ++ [x]
              = filter (in_partition bot_token user_id)
                  (remember db ++ [x])).
  { rewrite filter_app. simpl. unfold x.
    now rewrite in_partition_new_row. }
  rewrite E. apply ids_unique_filter. now rewrite map_app.
Qed.

(** One call: the rows of the pair before it plus one, capped at 20. *)
Lemma add_memory_length tie bot_token user_id db now role content :
  remember_ids_unique db ->
  length (partition_of bot_token user_id
            (add_memory tie now db bot_token user_id role content))
  = Nat.min 20 (S (length (partition_of bot_token user_id db))).
Proof.
  intros Hnd. rewrite add_memory_partition.
  set (x := new_row bot_token user_id db now role content).
  set (l := partition_of bot_token user_id db ++ [x]).
  assert (Hnl : NoDup (map Remember.id l))
    by now apply partition_with_new_row.
  change (sql_limit 20 (order_by_created_at_desc tie l))
    with (firstn 20 (order_by_created_at_desc tie l)).
  rewrite (Permutation_length
             (kept_rows_perm l
                (firstn 20 (order_by_created_at_desc tie l)) Hnl
                (firstn_NoDup _ _
                   (Permutation_NoDup (order_by_perm tie l)
                      (NoDup_map_inv _ _ Hnl)))
                (fun r Hr =>
                   proj1 (order_by_In tie l r) (firstn_In _ _ _ Hr)))).
  rewrite length_firstn, order_by_length. unfold l.
  rewrite length_app. cbn [length]. lia.
Qed.

Lemma add_memories_length tie bot_token user_id entries : forall db,
  remember_ids_unique db ->
  (length (partition_of bot_token user_id db) <= 20)%nat ->
  length (partition_of bot_token user_id
            (add_memories tie db bot_token user_id entries))
  = Nat.min 20 (length (partition_of bot_token user_id db)
                + length entries).
Proof.
  induction entries as [|e es IH]; intros db Hnd Hlen;
    cbn [add_memories length].
  - lia.
  - assert (Hl := add_memory_length tie bot_token user_id db (at_time e)
                    (with_role e) (with_content e) Hnd).
    rewrite IH.
    + rewrite Hl. lia.
    + exact (proj2 (add_memory_ids_NoDup tie bot_token user_id db
                      (at_time e) (with_role e) (with_content e) Hnd)).
    + rewrite Hl. lia.
Qed.

(** From the first append on the pair holds at most 20 rows, however many
    it held before. *)
Lemma add_memories_count tie bot_token user_id entries db :
  remember_ids_unique db ->
  entries <> [] ->
  length (partition_of bot_token user_id
            (add_memories tie db bot_token user_id entries))
  = Nat.min 20 (length (partition_of bot_token user_id db)
                + length entries).
Proof.
  intros Hnd Hne. destruct entries as [|e es]; [congruence|].
  cbn [add_memories].
  assert (Hl := add_memory_length tie bot_token user_id db (at_time e)
                  (with_role e) (with_content e) Hnd).
  rewrite add_memories_length.
  - rewrite Hl. cbn [length]. lia.
  - exact (proj2 (add_memory_ids_NoDup tie bot_token user_id db
                    (at_time e) (with_role e) (with_content e) Hnd)).
  - rewrite Hl. lia.
Qed.

(** C1, as the code has it: 25 calls of [add_memory] for one pair leave
    20 rows for the pair, whatever the clock reads and whatever the engine
    does with equal timestamps; when the 25 clock readings strictly
    increase and are later than the rows the pair already holds, those
    rows are the 20 last entries, and [get_memory] with limit 20 returns
    them oldest first, in the order they were appended. *)
Theorem add_memory_keeps_last_20 (tie : tie_break) (db : database)
    (bot_token : string) (user_id : Z) (entries : list append) :
  remember_ids_unique db ->
  length entries = 25%nat ->
  let db' := add_memories tie db bot_token user_id entries in
  sql_count (in_partition bot_token user_id) (remember db') = 20
  /\ ((forall y a, In y (partition_of bot_token user_id db) ->
         In a entries -> earlier (Remember.created_at y) (at_time a)) ->
      Sorted earlier (map at_time entries) ->
      map to_append (partition_of bot_token user_id db')
      = skipn 5 entries
      /\ get_memory tie db' bot_token user_id 20
         = map message_of (skipn 5 entries)).
Proof.
  intros Hnd Hlen db'. split.
  - unfold sql_count. fold (sql_select (in_partition bot_token user_id)
                              (remember db')).
    fold (partition_of bot_token user_id db').
    unfold db'. rewrite add_memories_count, Hlen; auto.
    + lia.
    + intros ->. discriminate.
  - intros Hold Hsorted.
    assert (Hs : StronglySorted earlier (map at_time entries))
      by now apply Sorted_earlier_strong.
    assert (Hw : map to_append (partition_of bot_token user_id db')
                 = lastn 20 entries).
    { apply add_memories_window; auto. lia. }
    assert (Hlast : lastn 20 entries = skipn 5 entries).
    { unfold lastn. now rewrite Hlen. }
    split; [now rewrite <- Hlast|].
    rewrite <- Hlast. apply get_memory_of_window; auto.
    + rewrite lastn_map. now apply StronglySorted_lastn.
    + rewrite lastn_length. lia.
Qed.

Lemma add_memory_keeps_last_20_witness :
  sql_count (in_partition "123:abc" 1001)
    (remember
       (add_memories tie_scan_order init_database "123:abc" 1001
          twenty_five)) = 20
  /\ get_memory tie_scan_order
       (add_memories tie_scan_order init_database "123:abc" 1001
          twenty_five) "123:abc" 1001 20
     = map message_of (skipn 5 twenty_five).
Proof.
  destruct (add_memory_keeps_last_20 tie_scan_order init_database
              "123:abc" 1001 twenty_five) as [A B].
  - constructor.
  - reflexivity.
  - split; [exact A|]. apply B.
    + intros y a [].
    + unfold twenty_five; simpl. repeat constructor.
Defined.

(** C1 as stated fails when the clock does not advance between the
    appends; both lists below have 25 entries.  With 25 appends at one instant and the rows of a tie listed
    in scan order, 20 rows remain but they are the 20 first entries, and
    [get_memory] returns them newest first.  With the local clock set back
    before the 25th append, the 25th entry is the oldest by created_at and
    is deleted by the call that inserts it, whatever the order of ties:
    entries 5 to 24 remain. *)
Lemma appends_without_clock_progress :
  length twenty_five_tied = 25%nat
  /\ length clock_set_back = 25%nat
  /\ sql_count (in_partition "123:abc" 1001)
    (remember
       (add_memories tie_scan_order init_database "123:abc" 1001
          twenty_five_tied)) = 20
  /\ get_memory tie_scan_order
       (add_memories tie_scan_order init_database "123:abc" 1001
          twenty_five_tied) "123:abc" 1001 20
     = map message_of (rev (firstn 20 twenty_five_tied))
  /\ get_memory tie_scan_order
       (add_memories tie_scan_order init_database "123:abc" 1001
          twenty_five_tied) "123:abc" 1001 20
     <> map message_of (skipn 5 twenty_five_tied)
  /\ (forall tie, tie = tie_scan_order \/ tie = tie_id_desc ->
        get_memory tie
          (add_memories tie init_database "123:abc" 1001 clock_set_back)
          "123:abc" 1001 20
        = map message_of (firstn 20 (skipn 4 clock_set_back))
        /\ get_memory tie
             (add_memories tie init_database "123:abc" 1001 clock_set_back)
             "123:abc" 1001 20
           <> map message_of (skipn 5 clock_set_back)).
Proof.
  split; [reflexivity|]. split; [reflexivity|].
  split; [vm_compute; reflexivity|].
  split; [vm_compute; reflexivity|].
  split; [vm_compute; discriminate|].
  intros tie [->| ->]; split;
    solve [vm_compute; reflexivity | vm_compute; discriminate].
Qed.

(** ** Entries with equal timestamps *)

Lemma insert_desc_tie_irrelevant tie1 tie2 x l :
  (forall y, In y l -> Remember.created_at y <> Remember.created_at x) ->
  insert_desc tie1 x l = insert_desc tie2 x l.
Proof.
  induction l as [|y l IH]; simpl; intros H; [reflexivity|].
  assert (E : String.eqb (Remember.created_at x) (Remember.created_at y)
              = false).
  { apply String.eqb_neq. intros E. apply (H y); auto. }
  unfold precedes. rewrite E. simpl. rewrite IH by auto. reflexivity.
Qed.

(** Without equal timestamps the tie-break plays no part. *)
Lemma order_by_tie_irrelevant tie1 tie2 rows :
  NoDup (map Remember.created_at rows) ->
  order_by_created_at_desc tie1 rows = order_by_created_at_desc tie2 rows.
Proof.
  induction rows as [|x l IH]; simpl; intros H; [reflexivity|].
  inversion H; subst. rewrite (IH H3).
  apply insert_desc_tie_irrelevant. intros y Hy E.
  apply H2. rewrite <- E. apply in_map. now apply order_by_In in Hy.
Qed.

(** C7, as the code has it: both queries sort by created_at alone, so
    each result lists the rows of the pair in descending created_at order
    whatever the engine does with equal timestamps; when the timestamps of
    the pair (the new row's included, for [add_memory]) are pairwise
    distinct, what [get_memory] returns and what [add_memory] retains do
    not depend on the engine's choice and are those of the order
    (created_at, then id). *)
Theorem memory_order_determined_without_ties (tie : tie_break)
    (db : database) (bot_token : string) (user_id : Z) :
  NoDup (map Remember.created_at (partition_of bot_token user_id db)) ->
  (forall rows,
     Sorted not_newer (order_by_created_at_desc tie rows)
     /\ Permutation rows (order_by_created_at_desc tie rows))
  /\ (forall limit,
        get_memory tie db bot_token user_id limit
        = get_memory tie_id_desc db bot_token user_id limit)
  /\ (forall now role content,
        ~ In now (map Remember.created_at
                    (partition_of bot_token user_id db)) ->
        add_memory tie now db bot_token user_id role content
        = add_memory tie_id_desc now db bot_token user_id role content).
Proof.
  intros Hnd. split; [|split].
  - intros rows. split; [apply order_by_sorted | apply order_by_perm].
  - intros limit. unfold get_memory.
    fold (partition_of bot_token user_id db).
    now rewrite (order_by_tie_irrelevant tie tie_id_desc _ Hnd).
  - intros now role content Hnow. unfold add_memory.
    set (x := Remember.mk _ bot_token user_id role content now).
    assert (E : sql_select (in_partition bot_token user_id)
                  (remember db ++ [x])
                = partition_of bot_token user_id db ++ [x]).
    { rewrite select_app. unfold partition_of. f_equal.
      unfold sql_select; simpl. unfold x, in_partition; simpl.
      now rewrite String.eqb_refl, Z.eqb_refl. }
    rewrite E.
    rewrite (order_by_tie_irrelevant tie tie_id_desc).
    + reflexivity.
    + rewrite map_app. apply NoDup_app; auto.
      * repeat constructor. simpl. tauto.
      * intros k Hk [<-|[]]. contradiction.
Qed.

Lemma memory_order_determined_without_ties_witness :
  get_memory tie_scan_order two_apart "123:abc" 1001 20
  = get_memory tie_id_desc two_apart "123:abc" 1001 20
  /\ add_memory tie_scan_order "2024-05-01T12:00:00.000012" two_apart
       "123:abc" 1001 "user" "third"
     = add_memory tie_id_desc "2024-05-01T12:00:00.000012" two_apart
         "123:abc" 1001 "user" "third".
Proof.
  assert (H : NoDup (map Remember.created_at
                       (partition_of "123:abc" 1001 two_apart))).
  { simpl. repeat constructor; simpl; intuition discriminate. }
  destruct (memory_order_determined_without_ties tie_scan_order two_apart
              "123:abc" 1001 H) as [_ [A B]].
  split; [apply A|]. apply B. simpl. intuition discriminate.
Defined.

(** C7 as stated fails: with equal timestamps and the rows of a tie listed
    in scan order, which ORDER BY created_at DESC allows, [get_memory]
    returns the two entries newest first, not in the order of the ids, and
    [add_memory] drops the entry it has just inserted where the order
    (created_at, then id) would drop the oldest one. *)
Lemma tied_timestamps_not_ordered_by_id :
  get_memory tie_scan_order tied_pair "123:abc" 1001 20
  = [Message.mk "user" "second"; Message.mk "user" "first"]
  /\ get_memory tie_id_desc tied_pair "123:abc" 1001 20
     = [Message.mk "user" "first"; Message.mk "user" "second"]
  /\ map Remember.id
       (remember (add_memory tie_scan_order "2024-05-01T12:00:00.000013"
                    twenty_tied "123:abc" 1001 "user" "21"))
     = [1; 2; 3; 4; 5; 6; 7; 8; 9; 10; 11; 12; 13; 14; 15; 16; 17; 18; 19;
        20]
  /\ map Remember.id
       (remember (add_memory tie_id_desc "2024-05-01T12:00:00.000013"
                    twenty_tied "123:abc" 1001 "user" "21"))
     = [2; 3; 4; 5; 6; 7; 8; 9; 10; 11; 12; 13; 14; 15; 16; 17; 18; 19; 20;
        21].
Proof. repeat split; vm_compute; reflexivity. Qed.

(** * Further properties *)

(** ** The retention window, whatever the clock does *)

(** X1: for any clock reading and any tie-break, [add_memory] leaves the
    pair with its rows before the call plus one, capped at 20, and keeps
    the ids of remember unique. *)
Theorem add_memory_caps_partition (tie : tie_break) (now : string)
    (db : database) (bot_token : string) (user_id : Z)
    (role content : string) :
  remember_ids_unique db ->
  let db' := add_memory tie now db bot_token user_id role content in
  length (partition_of bot_token user_id db')
  = Nat.min 20 (S (length (partition_of bot_token user_id db)))
  /\ remember_ids_unique db'.
Proof.
  intros Hnd db'. split.
  - unfold db'. rewrite add_memory_partition.
    set (x := new_row bot_token user_id db now role content).
    set (l := partition_of bot_token user_id db ++ [x]).
    assert (Hl : NoDup (map Remember.id l))
      by now apply partition_with_new_row.
    change (sql_limit 20 (order_by_created_at_desc tie l))
      with (firstn 20 (order_by_created_at_desc tie l)).
    assert (Hk : NoDup (firstn 20 (order_by_created_at_desc tie l))).
    { apply firstn_NoDup.
      apply (Permutation_NoDup (order_by_perm tie l)).
      exact (NoDup_map_inv _ _ Hl). }
    assert (Hi : incl (firstn 20 (order_by_created_at_desc tie l)) l).
    { intros r Hr. apply firstn_In in Hr. now apply order_by_In in Hr. }
    rewrite (Permutation_length (kept_rows_perm l _ Hl Hk Hi)).
    rewrite length_firstn, order_by_length. unfold l.
    rewrite length_app. cbn [length]. lia.
  - exact (proj2 (add_memory_ids_NoDup tie bot_token user_id db now role
                    content Hnd)).
Qed.

Lemma add_memory_caps_partition_witness :
  length (partition_of "123:abc" 1001
            (add_memory tie_id_desc "2024-05-01T12:00:00.000013"
               twenty_tied "123:abc" 1001 "user" "21")) = 20%nat.
Proof.
  apply (add_memory_caps_partition tie_id_desc
           "2024-05-01T12:00:00.000013" twenty_tied "123:abc" 1001 "user"
           "21").
  unfold remember_ids_unique. vm_compute.
  repeat (constructor; [simpl; intuition discriminate|]). constructor.
Defined.

Lemma filter_filter_implied {A : Type} (p q : A -> bool) (l : list A) :
  (forall a, p a = true -> q a = true) ->
  filter p (filter q l) = filter p l.
Proof.
  intros H. induction l as [|a l IH]; simpl; [reflexivity|].
  destruct (q a) eqn:Eq; simpl.
  - now rewrite IH.
  - destruct (p a) eqn:Ep; [|exact IH].
    rewrite (H a Ep) in Eq. discriminate.
Qed.

Lemma other_partition bot_token user_id bot_token' user_id' r :
  bot_token' <> bot_token \/ user_id' <> user_id ->
  in_partition bot_token' user_id' r = true ->
  in_partition bot_token user_id r = false.
Proof.
  unfold in_partition. intros Hne H.
  apply andb_true_iff in H. destruct H as [Ht Hu].
  apply String.eqb_eq in Ht. apply Z.eqb_eq in Hu.
  apply andb_false_iff. destruct Hne as [Hne|Hne].
  - left. apply String.eqb_neq. congruence.
  - right. apply Z.eqb_neq. congruence.
Qed.

(** X2: [add_memory] for one pair leaves the rows of every other pair as
    they were, and changes nothing but the remember table and the remember
    entry of sqlite_sequence: with that table and that entry put back, the
    store is the one before the call.  The entry always moves up, also
    when the new row does not survive the call. *)
Theorem add_memory_other_partitions (tie : tie_break) (now : string)
    (db : database) (bot_token : string) (user_id : Z)
    (role content : string) (bot_token' : string) (user_id' : Z) :
  bot_token' <> bot_token \/ user_id' <> user_id ->
  let db' := add_memory tie now db bot_token user_id role content in
  partition_of bot_token' user_id' db' = partition_of bot_token' user_id' db
  /\ set_seq_remember (set_remember db' (remember db))
       (seq_remember (sequences db)) = db
  /\ seq_remember (sequences db) < seq_remember (sequences db').
Proof.
  intros Hne db'. split; [|split].
  - unfold db', partition_of, add_memory; simpl.
    unfold sql_select, sql_delete.
    rewrite filter_filter_implied.
    + rewrite filter_app. simpl.
      destruct (in_partition bot_token' user_id' _) eqn:E.
      * apply (other_partition bot_token user_id) in E; auto.
        unfold in_partition in E; simpl in E.
        now rewrite String.eqb_refl, Z.eqb_refl in E.
      * apply app_nil_r.
    + intros r Hr.
      now rewrite (other_partition bot_token user_id _ _ r Hne Hr).
  - unfold db', add_memory, set_seq_remember.
    destruct db as [? ? ? ? ? ? ? ? ? ? []]. reflexivity.
  - unfold db', add_memory. simpl. apply next_rowid_above.
Qed.

Lemma add_memory_other_partitions_witness :
  partition_of "123:abc" 0
    (add_memory tie_scan_order "2024-05-01T12:00:02.000014" two_partitions
       "123:abc" 1001 "assistant" "wa alaykum")
  = partition_of "123:abc" 0 two_partitions
  /\ set_seq_remember
       (set_remember
          (add_memory tie_scan_order "2024-05-01T12:00:02.000014"
             two_partitions "123:abc" 1001 "assistant" "wa alaykum")
          (remember two_partitions))
       (seq_remember (sequences two_partitions)) = two_partitions.
Proof.
  assert (H : "123:abc"%string <> "123:abc"%string \/ 0 <> 1001)
    by (right; discriminate).
  destruct (add_memory_other_partitions tie_scan_order
              "2024-05-01T12:00:02.000014" two_partitions "123:abc" 1001
              "assistant" "wa alaykum" "123:abc" 0 H) as [A [B _]].
  split; [exact A | exact B].
Defined.

(** A row older than all the others comes last. *)
Lemma insert_desc_before_oldest tie a s x :
  earlier (Remember.created_at x) (Remember.created_at a) ->
  insert_desc tie a (s ++ [x]) = insert_desc tie a s ++ [x].
Proof.
  intros H. induction s as [|y s IH]; simpl.
  - unfold precedes. unfold earlier in H. now rewrite H.
  - destruct (precedes tie a y); [reflexivity|]. now rewrite IH.
Qed.

Lemma order_by_snoc_oldest tie l x :
  (forall y, In y l ->
     earlier (Remember.created_at x) (Remember.created_at y)) ->
  order_by_created_at_desc tie (l ++ [x])
  = order_by_created_at_desc tie l ++ [x].
Proof.
  induction l as [|a l IH]; simpl; intros H; [reflexivity|].
  rewrite IH by auto. apply insert_desc_before_oldest. auto.
Qed.

(** X3: a clock that went back loses the message: when the pair holds 20
    rows, all stamped later than the reading [now], the DELETE of
    [add_memory] removes the row just inserted and the table is as
    before. *)
Theorem add_memory_stale_clock (tie : tie_break) (now : string)
    (db : database) (bot_token : string) (user_id : Z)
    (role content : string) :
  remember_ids_unique db ->
  length (partition_of bot_token user_id db) = 20%nat ->
  (forall y, In y (partition_of bot_token user_id db) ->
     earlier now (Remember.created_at y)) ->
  remember (add_memory tie now db bot_token user_id role content)
  = remember db.
Proof.
  intros Hnd Hlen Hold. unfold add_memory; simpl.
  fold (new_row bot_token user_id db now role content).
  set (x := new_row bot_token user_id db now role content).
  assert (Hsel : sql_select (in_partition bot_token user_id)
                   (remember db ++ [x])
                 = partition_of bot_token user_id db ++ [x]).
  { rewrite select_app. unfold partition_of. f_equal.
    unfold sql_select; simpl. unfold x.
    now rewrite in_partition_new_row. }
  rewrite Hsel, order_by_snoc_oldest by exact Hold.
  set (p := partition_of bot_token user_id db) in *.
  assert (Hkeep : sql_limit 20 (order_by_created_at_desc tie p ++ [x])
                  = order_by_created_at_desc tie p).
  { change (sql_limit 20 ?s) with (firstn 20 s).
    rewrite firstn_app, order_by_length, Hlen.
    rewrite firstn_all2 by (rewrite order_by_length; lia).
    simpl. apply app_nil_r. }
  rewrite Hkeep. unfold sql_delete. rewrite filter_app.
  assert (Hfresh : forall r, In r (remember db) ->
                     Remember.id r <> Remember.id x).
  { intros r Hr E.
    assert (Hlt : Remember.id r < Remember.id x).
    { unfold x, new_row; simpl. apply next_rowid_fresh. now apply in_map. }
    lia. }
  assert (Hold_rows : filter
            (fun r => negb (in_partition bot_token user_id r
                            && not_in (map Remember.id
                                         (order_by_created_at_desc tie p))
                                 (Remember.id r)))
            (remember db) = remember db).
  { apply select_all. intros r Hr.
    destruct (in_partition bot_token user_id r) eqn:E; [|reflexivity].
    simpl.
    change (kept (map Remember.id (order_by_created_at_desc tie p)) r
            = true).
    apply kept_In. apply in_map. apply order_by_In.
    unfold p, partition_of, sql_select. apply filter_In. auto. }
  rewrite Hold_rows. cbn [filter].
  assert (Hpx : in_partition bot_token user_id x = true)
    by apply in_partition_new_row.
  rewrite Hpx.
  assert (Hx : kept (map Remember.id (order_by_created_at_desc tie p)) x
               = false).
  { apply kept_false.
    intros Hin. apply in_map_iff in Hin. destruct Hin as [r [E Hr]].
    apply order_by_In in Hr. unfold p, partition_of, sql_select in Hr.
    apply filter_In in Hr. exact (Hfresh r (proj1 Hr) E). }
  unfold kept in Hx. apply negb_false_iff in Hx. rewrite Hx. simpl.
  apply app_nil_r.
Qed.

Lemma add_memory_stale_clock_witness :
  remember (add_memory tie_scan_order "2024-05-01T11:59:59.999999"
              twenty_tied "123:abc" 1001 "user" "late")
  = remember twenty_tied.
Proof.
  apply add_memory_stale_clock.
  - unfold remember_ids_unique. vm_compute.
    repeat (constructor; [simpl; intuition discriminate|]). constructor.
  - reflexivity.
  - intros y Hy. vm_compute in Hy.
    repeat (destruct Hy as [<-|Hy]; [reflexivity|]). destruct Hy.
Defined.

(** X4: [get_memory] returns as many messages as the pair has rows, at
    most [limit] of them for a limit of 0 or more and all of them for a
    negative limit, each one the role and content of a row of the pair. *)
Theorem get_memory_length (tie : tie_break) (db : database)
    (bot_token : string) (user_id : Z) (limit : Z) :
  length (get_memory tie db bot_token user_id limit)
  = (if limit <? 0 then length (partition_of bot_token user_id db)
     else Nat.min (Z.to_nat limit)
            (length (partition_of bot_token user_id db)))
  /\ forall m, In m (get_memory tie db bot_token user_id limit) ->
       exists r, In r (partition_of bot_token user_id db)
                 /\ m = Message.mk (Remember.role r) (Remember.content r).
Proof.
  unfold get_memory. fold (partition_of bot_token user_id db).
  set (p := partition_of bot_token user_id db). split.
  - rewrite length_map, length_rev. unfold sql_limit.
    destruct (limit <? 0).
    + apply order_by_length.
    + now rewrite length_firstn, order_by_length.
  - intros m Hm. apply in_map_iff in Hm. destruct Hm as [r [E Hr]].
    exists r. split; auto. apply in_rev in Hr.
    apply (order_by_In tie). unfold sql_limit in Hr.
    destruct (limit <? 0); auto. exact (firstn_In _ _ _ Hr).
Qed.

Lemma get_memory_length_witness :
  length (get_memory tie_scan_order two_apart "123:abc" 1001 (-1)) = 2%nat
  /\ length (get_memory tie_scan_order two_apart "123:abc" 1001 0) = 0%nat.
Proof.
  split.
  - rewrite (proj1 (get_memory_length tie_scan_order two_apart "123:abc"
                      1001 (-1))). reflexivity.
  - rewrite (proj1 (get_memory_length tie_scan_order two_apart "123:abc"
                      1001 0)). reflexivity.
Defined.

(** X5: [clear_memory] with a user_id other than 0 empties that pair, so
    that [get_memory] returns nothing for it, and leaves the rows of every
    other pair and every other table as they were. *)
Theorem clear_memory_one_pair (tie : tie_break) (db : database)
    (bot_token : string) (user_id : Z) :
  user_id <> 0 ->
  let db' := clear_memory db bot_token (Some user_id) in
  (forall limit, get_memory tie db' bot_token user_id limit = [])
  /\ (forall bot_token' user_id',
        bot_token' <> bot_token \/ user_id' <> user_id ->
        partition_of bot_token' user_id' db'
        = partition_of bot_token' user_id' db)
  /\ set_remember db' (remember db) = db.
Proof.
  intros Hnz db'.
  assert (Hrem : remember db'
                 = sql_delete (in_partition bot_token user_id)
                     (remember db))
    by now apply clear_memory_partition.
  split; [|split].
  - intros limit. unfold get_memory. rewrite Hrem, select_after_delete.
    cbn [order_by_created_at_desc fold_right]. unfold sql_limit.
    destruct (limit <? 0); [reflexivity|]. now rewrite firstn_nil.
  - intros bot_token' user_id' Hne. unfold partition_of. rewrite Hrem.
    unfold sql_select, sql_delete. apply filter_filter_implied.
    intros r Hr.
    now rewrite (other_partition bot_token user_id _ _ r Hne Hr).
  - unfold db', clear_memory. destruct (truthy (Some user_id));
      now destruct db.
Qed.

Lemma clear_memory_one_pair_witness :
  get_memory tie_scan_order
    (clear_memory two_partitions "123:abc" (Some 1001)) "123:abc" 1001 20
  = []
  /\ partition_of "123:abc" 0
       (clear_memory two_partitions "123:abc" (Some 1001))
     = partition_of "123:abc" 0 two_partitions.
Proof.
  assert (H : 1001 <> 0) by discriminate.
  destruct (clear_memory_one_pair tie_scan_order two_partitions "123:abc"
              1001 H) as [A [B _]].
  split; [apply A|]. apply B. right. discriminate.
Defined.

(** X6: on a pair that starts empty, after any number of appends at
    strictly increasing clock readings, [get_memory] with a limit of 0 or
    more returns the [limit] most recent of the last 20 entries, oldest
    first: below 20 entries nothing is lost, and from 20 on the oldest
    make room. *)
Theorem get_memory_most_recent (tie : tie_break) (db : database)
    (bot_token : string) (user_id : Z) (entries : list append)
    (limit : Z) :
  remember_ids_unique db ->
  partition_of bot_token user_id db = [] ->
  Sorted earlier (map at_time entries) ->
  0 <= limit ->
  get_memory tie (add_memories tie db bot_token user_id entries)
    bot_token user_id limit
  = map message_of (lastn (Z.to_nat limit) (lastn 20 entries)).
Proof.
  intros Hnd Hempty Hsorted Hlimit.
  assert (Hs : StronglySorted earlier (map at_time entries))
    by now apply Sorted_earlier_strong.
  assert (Hinv : window_inv bot_token user_id db [] entries).
  { split; [exact Hnd|]. exists [], []. rewrite Hempty.
    repeat split; auto. intros y a []. }
  destruct (add_memories_inv tie bot_token user_id entries db [] entries
              eq_refl Hs Hinv) as [_ [o [n [Hp [Hn _]]]]].
  set (db' := add_memories tie db bot_token user_id entries) in *.
  assert (Ho : o = []).
  { assert (Hlen : length (partition_of bot_token user_id db')
                   = Nat.min 20 (length entries)).
    { unfold db'. rewrite add_memories_length; auto;
        rewrite Hempty; cbn [length]; lia. }
    rewrite Hp, length_app in Hlen.
    assert (Hln : length (map to_append n) = length n)
      by apply length_map.
    rewrite Hn, lastn_length in Hln.
    destruct o; [reflexivity | cbn [length] in Hlen; lia]. }
  subst o. simpl in Hp.
  unfold get_memory. fold (partition_of bot_token user_id db').
  rewrite Hp.
  assert (Hord : order_by_created_at_desc tie n = rev n).
  { rewrite <- (app_nil_r (rev n)).
    apply (order_by_app_increasing tie [] n).
    - rewrite created_at_to_append, Hn, lastn_map.
      now apply StronglySorted_lastn.
    - intros y z []. }
  rewrite Hord. unfold sql_limit.
  destruct (limit <? 0) eqn:E; [apply Z.ltb_lt in E; lia|].
  rewrite firstn_rev, rev_involutive.
  fold (lastn (Z.to_nat limit) n).
  rewrite <- Hn, <- lastn_map, map_map. reflexivity.
Qed.

Lemma get_memory_most_recent_witness :
  get_memory tie_scan_order two_apart "123:abc" 1001 1
  = [Message.mk "assistant" "second"].
Proof.
  apply (get_memory_most_recent tie_scan_order init_database "123:abc" 1001
           [mk_append "2024-05-01T12:00:00.000010" "user" "first";
            mk_append "2024-05-01T12:00:00.000011" "assistant" "second"]
           1).
  - constructor.
  - reflexivity.
  - repeat constructor.
  - lia.
Defined.

(** ** Guard counters, continued *)

Lemma guard_select_bumped (w : GuardData.row -> bool)
    (t : list GuardData.row) :
  (forall r, w (bump r) = w r) ->
  sql_select w (sql_update w bump t) = map bump (sql_select w t).
Proof.
  intros Hw. unfold sql_select, sql_update.
  induction t as [|r t IH]; simpl; [reflexivity|].
  destruct (w r) eqn:E; [rewrite Hw, E; simpl; now rewrite IH|].
  now rewrite E.
Qed.

Lemma guard_count_after_increment db bot_token chat_id admin_id :
  let r := increment_guard_kick db bot_token chat_id admin_id in
  get_guard_kick_count (snd r) bot_token chat_id admin_id
  = get_guard_kick_count db bot_token chat_id admin_id + 1
  /\ fst r = get_guard_kick_count db bot_token chat_id admin_id + 1.
Proof.
  unfold increment_guard_kick, get_guard_kick_count; simpl.
  set (w := guard_key bot_token chat_id admin_id).
  assert (Hown : w (GuardData.mk bot_token chat_id admin_id 1) = true)
    by apply guard_key_own.
  destruct (sql_select w (guard_data db)) as [|r0 rs] eqn:Hsel.
  - rewrite (select_nil_existsb _ _ Hsel), select_app, Hsel. simpl.
    rewrite Hown. simpl. auto.
  - rewrite (select_cons_existsb _ _ _ _ Hsel).
    rewrite guard_select_bumped by (intros; apply guard_key_bump).
    rewrite Hsel. simpl. auto.
Qed.

Lemma guard_key_other bot_token chat_id admin_id bot_token' chat_id'
    admin_id' r :
  bot_token' <> bot_token \/ chat_id' <> chat_id \/ admin_id' <> admin_id ->
  guard_key bot_token chat_id admin_id r = true ->
  guard_key bot_token' chat_id' admin_id' r = false.
Proof.
  unfold guard_key. intros Hne H.
  apply andb_true_iff in H. destruct H as [H Ha].
  apply andb_true_iff in H. destruct H as [Ht Hc].
  apply String.eqb_eq in Ht. apply Z.eqb_eq in Hc. apply Z.eqb_eq in Ha.
  destruct Hne as [Hne|[Hne|Hne]].
  - assert (E : String.eqb (GuardData.bot_token r) bot_token' = false)
      by (apply String.eqb_neq; congruence).
    now rewrite E.
  - assert (E : (GuardData.chat_id r =? chat_id') = false)
      by (apply Z.eqb_neq; congruence).
    rewrite E. now rewrite andb_false_r.
  - assert (E : (GuardData.admin_id r =? admin_id') = false)
      by (apply Z.eqb_neq; congruence).
    rewrite E. now rewrite andb_false_r.
Qed.

Lemma guard_select_other (w w' : GuardData.row -> bool)
    (t : list GuardData.row) :
  (forall r, w r = true -> w' r = false) ->
  (forall r, w' (bump r) = w' r) ->
  sql_select w' (sql_update w bump t) = sql_select w' t.
Proof.
  intros Hd Hb. unfold sql_select, sql_update.
  induction t as [|r t IH]; simpl; [reflexivity|].
  destruct (w r) eqn:E.
  - rewrite Hb, (Hd r E). exact IH.
  - now rewrite IH.
Qed.

(** X7: [n] calls of [increment_guard_kick] for one key raise its count by
    [n], and the call after them returns the count before plus [n + 1]:
    called one after the other, no increment is lost. *)
Theorem increment_guard_kick_repeated (n : nat) (db : database)
    (bot_token : string) (chat_id admin_id : Z) :
  let db' := increment_guard_kick_times n db bot_token chat_id admin_id in
  get_guard_kick_count db' bot_token chat_id admin_id
  = get_guard_kick_count db bot_token chat_id admin_id + Z.of_nat n
  /\ fst (increment_guard_kick db' bot_token chat_id admin_id)
     = get_guard_kick_count db bot_token chat_id admin_id + Z.of_nat n + 1.
Proof.
  revert db. induction n as [|n IH]; intros db; cbn zeta.
  - cbn [increment_guard_kick_times]. split; [lia|].
    rewrite (proj2 (guard_count_after_increment db bot_token chat_id
                      admin_id)). lia.
  - cbn [increment_guard_kick_times].
    destruct (IH (snd (increment_guard_kick db bot_token chat_id admin_id)))
      as [A B].
    rewrite A, B.
    rewrite (proj1 (guard_count_after_increment db bot_token chat_id
                      admin_id)). lia.
Qed.

(** X8: [increment_guard_kick] and [reset_guard_kicks] for one key leave
    the count of every other key as it was, and an increment after a
    reset returns 1. *)
Theorem guard_kick_other_keys (db : database) (bot_token : string)
    (chat_id admin_id : Z) (bot_token' : string) (chat_id' admin_id' : Z) :
  bot_token' <> bot_token \/ chat_id' <> chat_id \/ admin_id' <> admin_id ->
  get_guard_kick_count
    (snd (increment_guard_kick db bot_token chat_id admin_id))
    bot_token' chat_id' admin_id'
  = get_guard_kick_count db bot_token' chat_id' admin_id'
  /\ get_guard_kick_count (reset_guard_kicks db bot_token chat_id admin_id)
       bot_token' chat_id' admin_id'
     = get_guard_kick_count db bot_token' chat_id' admin_id'
  /\ fst (increment_guard_kick
            (reset_guard_kicks db bot_token chat_id admin_id)
            bot_token chat_id admin_id) = 1.
Proof.
  intros Hne.
  set (w := guard_key bot_token chat_id admin_id).
  set (w' := guard_key bot_token' chat_id' admin_id').
  assert (Hd : forall r, w r = true -> w' r = false)
    by (intros r; now apply guard_key_other).
  split; [|split].
  - unfold get_guard_kick_count, increment_guard_kick; simpl.
    fold w w'. destruct (existsb w (guard_data db)).
    + rewrite guard_select_other; auto.
    + rewrite select_app. simpl.
      assert (E : w' (GuardData.mk bot_token chat_id admin_id 1) = false)
        by (apply Hd, guard_key_own).
      rewrite E. now rewrite app_nil_r.
  - unfold get_guard_kick_count, reset_guard_kicks; simpl. fold w w'.
    unfold sql_select, sql_delete. rewrite filter_filter_implied; auto.
    intros r Hr. destruct (w r) eqn:E; auto.
    rewrite (Hd r E) in Hr. discriminate.
  - rewrite (proj2 (guard_count_after_increment _ _ _ _)).
    unfold get_guard_kick_count, reset_guard_kicks; simpl.
    now rewrite select_after_delete.
Qed.

Lemma guard_kick_other_keys_witness :
  get_guard_kick_count
    (snd (increment_guard_kick kicked_twice "123:abc" (-100500) 78))
    "123:abc" (-100500) 77 = 2.
Proof.
  assert (H : "123:abc"%string <> "123:abc"%string
              \/ -100500 <> -100500 \/ 77 <> 78)
    by (right; right; discriminate).
  rewrite (proj1 (guard_kick_other_keys kicked_twice "123:abc" (-100500) 78
                    "123:abc" (-100500) 77 H)).
  reflexivity.
Defined.

(** ** Guard settings *)

Lemma setting_key_own bot_token chat_id limit :
  setting_key bot_token chat_id (GuardSetting.mk bot_token chat_id limit)
  = true.
Proof.
  unfold setting_key; simpl. now rewrite String.eqb_refl, Z.eqb_refl.
Qed.

Lemma setting_key_other bot_token chat_id bot_token' chat_id' g :
  bot_token' <> bot_token \/ chat_id' <> chat_id ->
  setting_key bot_token' chat_id' g = true ->
  setting_key bot_token chat_id g = false.
Proof.
  unfold setting_key. intros Hne H.
  apply andb_true_iff in H. destruct H as [Ht Hc].
  apply String.eqb_eq in Ht. apply Z.eqb_eq in Hc.
  apply andb_false_iff. destruct Hne as [Hne|Hne].
  - left. apply String.eqb_neq. congruence.
  - right. apply Z.eqb_neq. congruence.
Qed.

(** X9: [get_guard_settings] gives kick_limit 5 for a chat without a row;
    after [set_guard_kick_limit] it gives the row with the limit set last,
    and the settings of every other chat are as before. *)
Theorem guard_settings_default_and_set (db : database) (bot_token : string)
    (chat_id limit : Z) :
  (sql_select (setting_key bot_token chat_id) (guard_settings db) = [] ->
   kick_limit_of (get_guard_settings db bot_token chat_id) = 5)
  /\ get_guard_settings (set_guard_kick_limit db bot_token chat_id limit)
       bot_token chat_id
     = RowDict (GuardSetting.mk bot_token chat_id limit)
  /\ (forall bot_token' chat_id',
        bot_token' <> bot_token \/ chat_id' <> chat_id ->
        get_guard_settings (set_guard_kick_limit db bot_token chat_id limit)
          bot_token' chat_id'
        = get_guard_settings db bot_token' chat_id').
Proof.
  split; [|split].
  - intros H. unfold get_guard_settings. now rewrite H.
  - unfold get_guard_settings, set_guard_kick_limit; simpl.
    rewrite select_app, select_after_delete. simpl.
    now rewrite setting_key_own.
  - intros bot_token' chat_id' Hne.
    unfold get_guard_settings, set_guard_kick_limit; simpl.
    rewrite select_app. simpl.
    assert (E : setting_key bot_token' chat_id'
                  (GuardSetting.mk bot_token chat_id limit) = false).
    { destruct (setting_key bot_token' chat_id' _) eqn:E; auto.
      apply (setting_key_other bot_token chat_id) in E; auto.
      now rewrite setting_key_own in E. }
    rewrite E, app_nil_r.
    unfold sql_select, sql_delete. rewrite filter_filter_implied; auto.
    intros g Hg.
    now rewrite (setting_key_other bot_token chat_id _ _ g Hne Hg).
Qed.

Lemma guard_settings_default_and_set_witness :
  kick_limit_of (get_guard_settings init_database "123:abc" (-100500)) = 5
  /\ kick_limit_of
       (get_guard_settings
          (set_guard_kick_limit
             (set_guard_kick_limit init_database "123:abc" (-100500) 3)
             "123:abc" (-100500) 8) "123:abc" (-100500)) = 8.
Proof.
  destruct (guard_settings_default_and_set init_database "123:abc"
              (-100500) 3) as [A _].
  destruct (guard_settings_default_and_set
              (set_guard_kick_limit init_database "123:abc" (-100500) 3)
              "123:abc" (-100500) 8) as [_ [B _]].
  split; [apply A; reflexivity|]. now rewrite B.
Defined.

(** ** Bots, continued *)

Lemma no_token_existsb (db : database) (token : string) :
  (forall b, In b (bots db) -> Bot.token b <> token) ->
  existsb (fun b => String.eqb (Bot.token b) token) (bots db) = false.
Proof.
  intros H. destruct (existsb _ (bots db)) eqn:E; auto.
  apply existsb_exists in E. destruct E as [b [Hb Ht]].
  apply String.eqb_eq in Ht. now apply H in Hb.
Qed.

(** X10: with a token that no bot has, [add_bot] returns True and
    [get_bot_by_token] then finds the new bot, active and with no users;
    every other token is looked up as before, and no other table
    changes. *)
Theorem add_bot_fresh_token (now : string) (db : database)
    (token bot_username bot_type : string) (owner_id : Z)
    (required_channel : option string) :
  (forall b, In b (bots db) -> Bot.token b <> token) ->
  let r := add_bot now db token bot_username bot_type owner_id
             required_channel in
  fst r = Return true
  /\ get_bot_by_token (snd r) token
     = Some (Bot.mk (next_rowid (seq_bots (sequences db))
                       (map Bot.id (bots db)))
               token bot_username bot_type owner_id now 1 required_channel
               0)
  /\ (forall token', token' <> token ->
        get_bot_by_token (snd r) token' = get_bot_by_token db token')
  /\ set_sequences (set_bots (snd r) (bots db)) (sequences db) = db.
Proof.
  intros Hfresh r. unfold r, add_bot, insert_into_bots.
  rewrite (no_token_existsb db token Hfresh). simpl.
  split; [reflexivity|]. split; [|split].
  - unfold get_bot_by_token; simpl. rewrite select_app.
    rewrite existsb_select by now apply no_token_existsb.
    simpl. now rewrite String.eqb_refl.
  - intros token' Hne. unfold get_bot_by_token; simpl.
    rewrite select_app. simpl.
    assert (E : String.eqb token token' = false)
      by (apply String.eqb_neq; congruence).
    rewrite E. now rewrite app_nil_r.
  - now destruct db.
Qed.

Lemma add_bot_fresh_token_witness :
  get_bot_by_token one_bot "123:abc"
  = Some (Bot.mk 1 "123:abc" "first_bot" "guard" 42
            "2024-05-01T10:00:00.000001" 1 None 0).
Proof.
  apply (add_bot_fresh_token "2024-05-01T10:00:00.000001" init_database
           "123:abc" "first_bot" "guard" 42 None).
  intros b [].
Defined.

Lemma tokens_after_update (w : Bot.row -> bool) (f : Bot.row -> Bot.row)
    (t : list Bot.row) :
  (forall b, Bot.token (f b) = Bot.token b) ->
  map Bot.token (sql_update w f t) = map Bot.token t.
Proof.
  intros Hf. unfold sql_update. rewrite map_map. apply map_ext.
  intros b. destruct (w b); auto.
Qed.

Lemma tokens_unique_after_delete (w : Bot.row -> bool) (t : list Bot.row) :
  NoDup (map Bot.token t) -> NoDup (map Bot.token (sql_delete w t)).
Proof.
  unfold sql_delete. intros H.
  induction t as [|b t IH]; simpl; [constructor|].
  apply NoDup_cons_iff in H. destruct H as [Hb Ht].
  destruct (negb (w b)); simpl; [|now apply IH].
  apply NoDup_cons; [|now apply IH].
  intros Hin. apply Hb. apply in_map_iff in Hin.
  destruct Hin as [b' [E Hb']]. apply filter_In in Hb'.
  rewrite <- E. apply in_map. tauto.
Qed.

(** X11: no two bots ever share a token: [add_bot], whether it succeeds
    or not, [toggle_bot_active], [update_bot_channel],
    [update_bot_users_count], [add_bot_user] and [delete_bot] all keep the
    tokens of the bots table distinct. *)
Theorem tokens_stay_unique (now : string) (db : database)
    (token bot_username bot_type channel first_name : string)
    (owner_id user_id count : Z) (required_channel username : option string) :
  tokens_unique db ->
  tokens_unique
    (snd (add_bot now db token bot_username bot_type owner_id
            required_channel))
  /\ tokens_unique (snd (toggle_bot_active db token))
  /\ tokens_unique (update_bot_channel db token channel)
  /\ tokens_unique (update_bot_users_count db token count)
  /\ tokens_unique (add_bot_user now db token user_id first_name username)
  /\ tokens_unique (delete_bot db token).
Proof.
  unfold tokens_unique. intros H. repeat split.
  - unfold add_bot, insert_into_bots.
    destruct (existsb _ (bots db)) eqn:E; simpl; auto.
    rewrite map_app. apply NoDup_app; auto.
    + repeat constructor. simpl. tauto.
    + intros k Hk [<-|[]]. apply in_map_iff in Hk.
      destruct Hk as [b [Et Hb]].
      assert (existsb (fun b => String.eqb (Bot.token b) token) (bots db)
              = true).
      { apply existsb_exists. exists b. split; auto.
        now apply String.eqb_eq. }
      congruence.
  - unfold toggle_bot_active; simpl. now rewrite tokens_after_update.
  - unfold update_bot_channel; simpl. now rewrite tokens_after_update.
  - unfold update_bot_users_count; simpl. now rewrite tokens_after_update.
  - unfold add_bot_user.
    destruct (existsb _ (bot_users db)); simpl;
      now rewrite tokens_after_update.
  - unfold delete_bot; simpl. now apply tokens_unique_after_delete.
Qed.

Lemma tokens_stay_unique_witness :
  tokens_unique
    (snd (add_bot "2024-05-01T10:00:07.000002" one_bot "123:abc"
            "second_bot" "adhkar" 43 None)).
Proof.
  apply (tokens_stay_unique "2024-05-01T10:00:07.000002" one_bot "123:abc"
           "second_bot" "adhkar" "" "" 43 0 0 None None).
  unfold tokens_unique. simpl. repeat constructor. simpl. tauto.
Defined.

(** X12: ids of bots are not used twice: when sqlite_sequence is at least
    every stored id, it stays so through [add_bot], [delete_bot] and
    [clear_all_data], and a bot added after a delete or a clearing gets
    an id above every id stored before. *)
Theorem bot_ids_not_reused (now : string) (db : database)
    (token deleted bot_username bot_type : string) (owner_id : Z)
    (required_channel : option string) :
  bot_ids_recorded db ->
  bot_ids_recorded
    (snd (add_bot now db token bot_username bot_type owner_id
            required_channel))
  /\ bot_ids_recorded (delete_bot db deleted)
  /\ bot_ids_recorded (clear_all_data db)
  /\ (forall b new,
        In b (bots db) ->
        In new (bots (snd (add_bot now (delete_bot db deleted) token
                             bot_username bot_type owner_id
                             required_channel))) ->
        In new (bots (delete_bot db deleted))
        \/ Bot.id b < Bot.id new)
  /\ (forall b new,
        In b (bots db) ->
        In new (bots (snd (add_bot now (clear_all_data db) token
                             bot_username bot_type owner_id
                             required_channel))) ->
        Bot.id b < Bot.id new).
Proof.
  unfold bot_ids_recorded. intros H. rewrite Forall_forall in H.
  split; [|split; [|split; [|split]]].
  - unfold add_bot, insert_into_bots.
    destruct (existsb _ (bots db)); simpl; [now apply Forall_forall|].
    apply Forall_app. split.
    + apply Forall_forall. intros b Hb. specialize (H b Hb).
      pose proof (next_rowid_above (seq_bots (sequences db))
                    (map Bot.id (bots db))). lia.
    + repeat constructor. simpl. lia.
  - unfold delete_bot; simpl. apply Forall_forall. intros b Hb.
    apply filter_In in Hb. apply H. tauto.
  - constructor.
  - intros b new Hb Hnew. unfold add_bot, insert_into_bots in Hnew.
    destruct (existsb _ (bots (delete_bot db deleted)));
      simpl in Hnew; [now left|].
    apply in_app_or in Hnew. destruct Hnew as [Hnew|[<-|[]]].
    + left. exact Hnew.
    + right. simpl. specialize (H b Hb).
      pose proof (next_rowid_above (seq_bots (sequences db))
                    (map Bot.id
                       (sql_delete
                          (fun b => String.eqb (Bot.token b) deleted)
                          (bots db)))). lia.
  - intros b new Hb Hnew. unfold add_bot, insert_into_bots in Hnew.
    simpl in Hnew. destruct Hnew as [<-|[]]. simpl.
    specialize (H b Hb).
    pose proof (next_rowid_above (seq_bots (sequences db)) []). lia.
Qed.

Lemma bot_ids_not_reused_witness :
  option_map Bot.id
    (get_bot_by_token
       (snd (add_bot "2024-05-01T10:05:00.000020"
               (delete_bot one_bot "123:abc") "456:def" "next_bot" "guard"
               42 None)) "456:def") = Some 2
  /\ bot_ids_recorded (delete_bot one_bot "123:abc").
Proof.
  assert (H : bot_ids_recorded one_bot).
  { unfold bot_ids_recorded. simpl. repeat constructor. simpl. lia. }
  destruct (bot_ids_not_reused "2024-05-01T10:05:00.000020" one_bot
              "456:def" "123:abc" "next_bot" "guard" 42 None H)
    as [_ [A _]].
  split; [reflexivity | exact A].
Defined.

(** X13: usernames are not unique: [add_bot] accepts a username that a
    stored bot has, and [get_bot_by_username] goes on returning the bot it
    returned before, never the newer one. *)
Theorem get_bot_by_username_keeps_first (now : string) (db : database)
    (token bot_username bot_type username : string) (owner_id : Z)
    (required_channel : option string) (b : Bot.row) :
  get_bot_by_username db username = Some b ->
  get_bot_by_username
    (snd (add_bot now db token bot_username bot_type owner_id
            required_channel)) username = Some b.
Proof.
  unfold get_bot_by_username, add_bot, insert_into_bots. intros H.
  destruct (existsb _ (bots db)); simpl; auto.
  rewrite select_app.
  destruct (sql_select _ (bots db)); [discriminate | exact H].
Qed.

Lemma get_bot_by_username_keeps_first_witness :
  option_map Bot.token
    (get_bot_by_username
       (snd (add_bot "2024-05-01T10:06:00.000021" one_bot "456:def"
               "first_bot" "adhkar" 43 None)) "first_bot")
  = Some "123:abc"%string
  /\ fst (add_bot "2024-05-01T10:06:00.000021" one_bot "456:def"
            "first_bot" "adhkar" 43 None) = Return true.
Proof.
  split; [|reflexivity].
  rewrite (get_bot_by_username_keeps_first "2024-05-01T10:06:00.000021"
             one_bot "456:def" "first_bot" "adhkar" "first_bot" 43 None
             (Bot.mk 1 "123:abc" "first_bot" "guard" 42
                "2024-05-01T10:00:00.000001" 1 None 0) eq_refl).
  reflexivity.
Defined.

Lemma set_users_count_twice (w : Bot.row -> bool) (c1 c2 : Z)
    (t : list Bot.row) :
  (forall b v, w (set_users_count b v) = w b) ->
  sql_update w (fun b => set_users_count b c2)
    (sql_update w (fun b => set_users_count b c1) t)
  = sql_update w (fun b => set_users_count b c2) t.
Proof.
  intros Hw. unfold sql_update. rewrite map_map. apply map_ext.
  intros b. destruct (w b) eqn:E.
  - now rewrite Hw, E.
  - now rewrite E.
Qed.

(** X14: a count written by [update_bot_users_count] does not outlive the
    next [add_bot_user] for the bot, which recounts: the store is the one
    [add_bot_user] gives without the update.  For a token that no bot has,
    [update_bot_users_count] and [update_bot_channel] change nothing. *)
Theorem update_bot_users_count_overwritten (now : string) (db : database)
    (token channel : string) (count user_id : Z) (first_name : string)
    (username : option string) :
  add_bot_user now (update_bot_users_count db token count) token user_id
    first_name username
  = add_bot_user now db token user_id first_name username
  /\ ((forall b, In b (bots db) -> Bot.token b <> token) ->
      update_bot_users_count db token count = db
      /\ update_bot_channel db token channel = db).
Proof.
  split.
  - unfold add_bot_user, update_bot_users_count; simpl.
    destruct (existsb _ (bot_users db)); simpl;
      unfold set_bots; simpl; now rewrite set_users_count_twice.
  - intros H.
    assert (Hw : forall b, In b (bots db) ->
                   String.eqb (Bot.token b) token = false).
    { intros b Hb. apply String.eqb_neq. now apply H. }
    unfold update_bot_users_count, update_bot_channel.
    rewrite !update_none by exact Hw. now destruct db.
Qed.

Lemma update_bot_users_count_overwritten_witness :
  update_bot_users_count one_bot "no:such" 9 = one_bot
  /\ update_bot_channel one_bot "no:such" "@channel" = one_bot.
Proof.
  apply (update_bot_users_count_overwritten "" one_bot "no:such" "@channel"
           9 0 "" None).
  intros b [<-|[]]. discriminate.
Defined.

Lemma select_after_other_delete {row : Type} (w w' : row -> bool)
    (t : list row) :
  (forall r, w' r = true -> w r = false) ->
  sql_select w' (sql_delete w t) = sql_select w' t.
Proof.
  intros H. unfold sql_select, sql_delete. apply filter_filter_implied.
  intros r Hr. now rewrite (H r Hr).
Qed.

Lemma other_string (s s' x : string) :
  s' <> s -> String.eqb x s' = true -> String.eqb x s = false.
Proof.
  intros Hne H. apply String.eqb_eq in H. apply String.eqb_neq. congruence.
Qed.

(** X15: [delete_bot] touches one token only: the bot, the users, the
    fake subscription and the memory of every other token are as before,
    and so are members, developers and banned makers; for a token that no
    row of the four tables carries the store does not change. *)
Theorem delete_bot_other_tokens (db : database) (token : string) :
  (forall token', token' <> token ->
     get_bot_by_token (delete_bot db token) token'
     = get_bot_by_token db token'
     /\ get_bot_users (delete_bot db token) token'
        = get_bot_users db token'
     /\ get_fake_sub (delete_bot db token) token'
        = get_fake_sub db token'
     /\ forall user_id,
          partition_of token' user_id (delete_bot db token)
          = partition_of token' user_id db)
  /\ members (delete_bot db token) = members db
  /\ developers (delete_bot db token) = developers db
  /\ banned_makers (delete_bot db token) = banned_makers db
  /\ ((forall b, In b (bots db) -> Bot.token b <> token) ->
      (forall u, In u (bot_users db) -> BotUser.bot_token u <> token) ->
      (forall f, In f (fake_subs db) -> FakeSub.bot_token f <> token) ->
      (forall m, In m (remember db) -> Remember.bot_token m <> token) ->
      delete_bot db token = db).
Proof.
  split; [|repeat split].
  - intros token' Hne. repeat split.
    + unfold get_bot_by_token, delete_bot; simpl.
      rewrite select_after_other_delete; auto.
      intros b. now apply other_string.
    + unfold get_bot_users, delete_bot; simpl.
      rewrite select_after_other_delete; auto.
      intros b. now apply other_string.
    + unfold get_fake_sub, delete_bot; simpl.
      rewrite select_after_other_delete; auto.
      intros b. now apply other_string.
    + intros user_id. unfold partition_of, delete_bot; simpl.
      rewrite select_after_other_delete; auto.
      intros m Hm. unfold in_partition in Hm.
      apply andb_true_iff in Hm. now apply (other_string token token').
  - intros Hb Hu Hf Hm. unfold delete_bot; simpl.
    unfold sql_delete.
    rewrite !select_all; [now destruct db| | | |].
    + intros m Hin. apply negb_true_iff, String.eqb_neq. now apply Hm.
    + intros f Hin. apply negb_true_iff, String.eqb_neq. now apply Hf.
    + intros u Hin. apply negb_true_iff, String.eqb_neq. now apply Hu.
    + intros b Hin. apply negb_true_iff, String.eqb_neq. now apply Hb.
Qed.

Lemma delete_bot_other_tokens_witness :
  get_bot_by_token (delete_bot two_users "no:such") "123:abc"
  = get_bot_by_token two_users "123:abc"
  /\ delete_bot init_database "123:abc" = init_database.
Proof.
  destruct (delete_bot_other_tokens two_users "no:such") as [A _].
  destruct (delete_bot_other_tokens init_database "123:abc")
    as [_ [_ [_ [_ B]]]].
  split.
  - apply A. discriminate.
  - apply B; intros x [].
Defined.

(** ** Bot users, continued *)

Lemma pair_key_other bot_token user_id bot_token' user_id' u :
  bot_token' <> bot_token \/ user_id' <> user_id ->
  pair_key bot_token user_id u = true ->
  pair_key bot_token' user_id' u = false.
Proof.
  unfold pair_key. intros Hne H.
  apply andb_true_iff in H. destruct H as [Ht Hu].
  apply String.eqb_eq in Ht. apply Z.eqb_eq in Hu.
  apply andb_false_iff. destruct Hne as [Hne|Hne].
  - left. apply String.eqb_neq. congruence.
  - right. apply Z.eqb_neq. congruence.
Qed.

Lemma no_pair_existsb (db : database) (bot_token : string) (user_id : Z) :
  (forall u, In u (bot_users db) ->
     BotUser.bot_token u <> bot_token \/ BotUser.user_id u <> user_id) ->
  existsb (pair_key bot_token user_id) (bot_users db) = false.
Proof.
  intros H. destruct (existsb _ (bot_users db)) eqn:E; auto.
  apply existsb_exists in E. destruct E as [u [Hu Hk]].
  unfold pair_key in Hk. apply andb_true_iff in Hk. destruct Hk as [Ht Hi].
  apply String.eqb_eq in Ht. apply Z.eqb_eq in Hi.
  destruct (H u Hu); contradiction.
Qed.

(** X16: for a pair not stored yet, [add_bot_user] appends the user, not
    banned, with the next id, and the bot's users_count becomes the number
    of its users that were not banned before, plus one. *)
Theorem add_bot_user_new_pair (now : string) (db : database)
    (bot_token : string) (user_id : Z) (first_name : string)
    (username : option string) :
  (forall u, In u (bot_users db) ->
     BotUser.bot_token u <> bot_token \/ BotUser.user_id u <> user_id) ->
  let db' := add_bot_user now db bot_token user_id first_name username in
  bot_users db'
  = bot_users db
    ++ [BotUser.mk (next_rowid (seq_bot_users (sequences db))
                      (map BotUser.id (bot_users db)))
          bot_token user_id first_name username now 0]
  /\ is_bot_user_banned db' bot_token user_id = false
  /\ (forall b, In b (bots db') -> Bot.token b = bot_token ->
        Bot.users_count b = count_not_banned db bot_token + 1).
Proof.
  intros Hnew db'.
  assert (Hex : existsb (pair_key bot_token user_id) (bot_users db) = false)
    by now apply no_pair_existsb.
  assert (Hrows : bot_users db'
                  = bot_users db
                    ++ [BotUser.mk
                          (next_rowid (seq_bot_users (sequences db))
                             (map BotUser.id (bot_users db)))
                          bot_token user_id first_name username now 0]).
  { unfold db', add_bot_user. fold (pair_key bot_token user_id).
    now rewrite Hex. }
  split; [exact Hrows|]. split.
  - unfold is_bot_user_banned. fold (pair_key bot_token user_id).
    rewrite Hrows, select_app.
    rewrite (existsb_select _ _ Hex). simpl.
    unfold pair_key; simpl. now rewrite String.eqb_refl, Z.eqb_refl.
  - intros b Hb Ht. unfold db', add_bot_user in Hb.
    fold (pair_key bot_token user_id) in Hb. rewrite Hex in Hb.
    simpl in Hb.
    rewrite (users_count_after_update _ _ _ _ Hb Ht).
    unfold count_not_banned, sql_count. rewrite filter_app, length_app.
    simpl. rewrite String.eqb_refl. simpl. lia.
Qed.

Lemma add_bot_user_new_pair_witness :
  option_map Bot.users_count (get_bot_by_token two_users "123:abc")
  = Some 2
  /\ is_bot_user_banned two_users "123:abc" 1002 = false.
Proof.
  split; [reflexivity|].
  apply (add_bot_user_new_pair "2024-05-01T10:02:00.000004"
           (add_bot_user "2024-05-01T10:01:00.000003" one_bot "123:abc"
              1001 "Ana" None) "123:abc" 1002 "Bo" (Some "bo_b"%string)).
  intros u [<-|[]]. right. discriminate.
Defined.






Lemma select_set_banned (w : BotUser.row -> bool) (v : Z)
    (t : list BotUser.row) :
  (forall u, w (set_banned u v) = w u) ->
  sql_select w (sql_update w (fun u => set_banned u v) t)
  = map (fun u => set_banned u v) (sql_select w t).
Proof.
  intros Hw. unfold sql_select, sql_update.
  induction t as [|u t IH]; simpl; [reflexivity|].
  destruct (w u) eqn:E; [rewrite Hw, E; simpl; now rewrite IH|].
  now rewrite E.
Qed.

Lemma select_other_set_banned (w w' : BotUser.row -> bool) (v : Z)
    (t : list BotUser.row) :
  (forall u, w u = true -> w' u = false) ->
  (forall u, w' (set_banned u v) = w' u) ->
  sql_select w' (sql_update w (fun u => set_banned u v) t)
  = sql_select w' t.
Proof.
  intros Hd Hb. unfold sql_select, sql_update.
  induction t as [|u t IH]; simpl; [reflexivity|].
  destruct (w u) eqn:E.
  - rewrite Hb, (Hd u E). exact IH.
  - now rewrite IH.
Qed.

(** X18: after [ban_bot_user] the pair is banned exactly when it has a
    row: banning a user the bot never saw stores nothing, and the user is
    still reported as not banned; after [unban_bot_user] the pair is not
    banned; and neither call changes what [is_bot_user_banned] says of
    another pair. *)
Theorem ban_and_unban_bot_user (db : database) (bot_token : string)
    (user_id : Z) :
  is_bot_user_banned (ban_bot_user db bot_token user_id) bot_token user_id
  = existsb (pair_key bot_token user_id) (bot_users db)
  /\ is_bot_user_banned (unban_bot_user db bot_token user_id) bot_token
       user_id = false
  /\ (forall bot_token' user_id',
        bot_token' <> bot_token \/ user_id' <> user_id ->
        is_bot_user_banned (ban_bot_user db bot_token user_id) bot_token'
          user_id'
        = is_bot_user_banned db bot_token' user_id'
        /\ is_bot_user_banned (unban_bot_user db bot_token user_id)
             bot_token' user_id'
           = is_bot_user_banned db bot_token' user_id').
Proof.
  split; [|split].
  - unfold is_bot_user_banned, ban_bot_user; simpl.
    fold (pair_key bot_token user_id).
    rewrite select_set_banned by reflexivity.
    destruct (sql_select (pair_key bot_token user_id) (bot_users db))
      as [|u us] eqn:E.
    + now rewrite (select_nil_existsb _ _ E).
    + now rewrite (select_cons_existsb _ _ _ _ E).
  - unfold is_bot_user_banned, unban_bot_user; simpl.
    fold (pair_key bot_token user_id).
    rewrite select_set_banned by reflexivity.
    now destruct (sql_select (pair_key bot_token user_id) (bot_users db)).
  - intros bot_token' user_id' Hne.
    unfold is_bot_user_banned, ban_bot_user, unban_bot_user; simpl.
    fold (pair_key bot_token user_id) (pair_key bot_token' user_id').
    rewrite !select_other_set_banned; auto;
      intros u; now apply pair_key_other.
Qed.

Lemma ban_and_unban_bot_user_witness :
  is_bot_user_banned (ban_bot_user two_users "123:abc" 1002) "123:abc" 1001
  = false
  /\ is_bot_user_banned (ban_bot_user two_users "123:abc" 1002) "123:abc"
       1002 = true
  /\ is_bot_user_banned (ban_bot_user two_users "123:abc" 555) "123:abc"
       555 = false.
Proof.
  destruct (ban_and_unban_bot_user two_users "123:abc" 1002) as [A [_ B]].
  destruct (ban_and_unban_bot_user two_users "123:abc" 555) as [C _].
  assert (H : "123:abc"%string <> "123:abc"%string \/ 1001 <> 1002)
    by (right; discriminate).
  split; [|split].
  - exact (eq_trans (proj1 (B "123:abc"%string 1001 H)) eq_refl).
  - exact (eq_trans A eq_refl).
  - exact (eq_trans C eq_refl).
Defined.

(** X19: [add_bot_user] changes nobody's ban: for every pair, the one it
    is called with included, [is_bot_user_banned] answers after the call
    what it answered before, so a banned user who starts the bot again
    stays banned. *)
Theorem add_bot_user_keeps_bans (now : string) (db : database)
    (bot_token : string) (user_id : Z) (first_name : string)
    (username : option string) (bot_token' : string) (user_id' : Z) :
  is_bot_user_banned
    (add_bot_user now db bot_token user_id first_name username)
    bot_token' user_id'
  = is_bot_user_banned db bot_token' user_id'.
Proof.
  unfold is_bot_user_banned, add_bot_user.
  fold (pair_key bot_token user_id) (pair_key bot_token' user_id').
  destruct (existsb (pair_key bot_token user_id) (bot_users db)) eqn:E;
    simpl; [reflexivity|].
  rewrite select_app.
  destruct (sql_select (pair_key bot_token' user_id') (bot_users db))
    as [|u us] eqn:Hsel; [|reflexivity].
  simpl.
  destruct (pair_key bot_token' user_id' _) eqn:Ek; reflexivity.
Qed.

(** ** Tables keyed by user_id *)

Section RowidTable.
Context {row : Type} (rowid : row -> Z).
Implicit Types (x : row) (t : list row).

Lemma fetchone_existsb (w : row -> bool) t :
  match fetchone (sql_select w t) with
  | Some _ => true
  | None => false
  end = existsb w t.
Proof.
  unfold sql_select. induction t as [|y t IH]; simpl; [reflexivity|].
  destruct (w y); [reflexivity | exact IH].
Qed.

Lemma insert_by_rowid_In x t y :
  In y (insert_by_rowid rowid x t) <-> y = x \/ In y t.
Proof.
  induction t as [|z t IH]; simpl.
  - intuition.
  - destruct (rowid x <? rowid z); simpl; [intuition|].
    rewrite IH. intuition.
Qed.

Lemma insert_by_rowid_existsb (w : row -> bool) x t :
  existsb w (insert_by_rowid rowid x t) = w x || existsb w t.
Proof.
  induction t as [|z t IH]; simpl; [reflexivity|].
  destruct (rowid x <? rowid z); simpl; [reflexivity|].
  rewrite IH. destruct (w x), (w z); reflexivity.
Qed.

Lemma insert_by_rowid_select (w : row -> bool) x t :
  w x = true -> (forall y, In y t -> w y = false) ->
  sql_select w (insert_by_rowid rowid x t) = [x].
Proof.
  intros Hx. unfold sql_select.
  induction t as [|z t IH]; simpl; intros H; [now rewrite Hx|].
  destruct (rowid x <? rowid z); simpl.
  - rewrite Hx, (H z (or_introl eq_refl)).
    fold (sql_select w t). rewrite select_none; auto.
  - rewrite (H z (or_introl eq_refl)). auto.
Qed.

Lemma insert_by_rowid_ascending x t :
  ascending (map rowid t) -> ~ In (rowid x) (map rowid t) ->
  ascending (map rowid (insert_by_rowid rowid x t)).
Proof.
  unfold ascending. induction t as [|z t IH]; simpl; intros Hs Hx.
  - repeat constructor.
  - apply StronglySorted_inv in Hs. destruct Hs as [Hs Hz].
    destruct (rowid x <? rowid z) eqn:E; simpl.
    + apply Z.ltb_lt in E. constructor.
      * constructor; auto.
      * constructor; auto. eapply Forall_impl; [|exact Hz].
        intros k Hk. simpl in Hk. lia.
    + apply Z.ltb_ge in E. constructor.
      * apply IH; auto.
      * apply Forall_forall. intros k Hk. apply in_map_iff in Hk.
        destruct Hk as [y [<- Hy]]. apply insert_by_rowid_In in Hy.
        destruct Hy as [->|Hy].
        -- assert (rowid z <> rowid x) by (intros Heq; apply Hx; now left).
           lia.
        -- rewrite Forall_forall in Hz. apply Hz. now apply in_map.
Qed.

Lemma delete_ascending (w : row -> bool) t :
  ascending (map rowid t) -> ascending (map rowid (sql_delete w t)).
Proof.
  unfold ascending, sql_delete.
  induction t as [|z t IH]; simpl; intros Hs; [constructor|].
  apply StronglySorted_inv in Hs. destruct Hs as [Hs Hz].
  destruct (negb (w z)); simpl; auto.
  constructor; auto. apply Forall_forall. intros k Hk.
  apply in_map_iff in Hk. destruct Hk as [y [<- Hy]].
  apply filter_In in Hy. rewrite Forall_forall in Hz.
  apply Hz. apply in_map. tauto.
Qed.

Lemma delete_removes_rowid (k : Z) t :
  ~ In k (map rowid (sql_delete (fun y => rowid y =? k) t)).
Proof.
  intros H. apply in_map_iff in H. destruct H as [y [E Hy]].
  unfold sql_delete in Hy. apply filter_In in Hy. destruct Hy as [_ Hy].
  apply negb_true_iff, Z.eqb_neq in Hy. contradiction.
Qed.

Lemma ascending_NoDup (ids : list Z) : ascending ids -> NoDup ids.
Proof.
  unfold ascending. induction ids as [|k ids IH]; intros Hs; constructor.
  - apply StronglySorted_inv in Hs. destruct Hs as [_ Hk].
    intros Hin. rewrite Forall_forall in Hk. specialize (Hk k Hin). lia.
  - apply IH. now apply StronglySorted_inv in Hs.
Qed.
End RowidTable.

(** X20: [add_developer] makes the user a developer with the metadata of
    this call alone, [remove_developer] returns whether the user was one
    and leaves the user not a developer; neither changes the status of
    another user; and a developers table in ascending user_id order, one
    row per user, stays so. *)
Theorem developers_upsert_and_remove (now : string) (db : database)
    (user_id : Z) (username : option string) (added_by : option Z) :
  let added := snd (add_developer now db user_id username added_by) in
  let removed := remove_developer db user_id in
  is_developer added user_id = true
  /\ sql_select (fun d => Developer.user_id d =? user_id)
       (get_all_developers added)
     = [Developer.mk user_id username now added_by]
  /\ fst removed = is_developer db user_id
  /\ is_developer (snd removed) user_id = false
  /\ (forall user_id', user_id' <> user_id ->
        is_developer added user_id' = is_developer db user_id'
        /\ is_developer (snd removed) user_id' = is_developer db user_id')
  /\ (ascending (map Developer.user_id (developers db)) ->
      ascending (map Developer.user_id (developers added))
      /\ ascending (map Developer.user_id (developers (snd removed)))).
Proof.
  intros added removed.
  set (w := fun d => Developer.user_id d =? user_id).
  assert (Hsel : sql_select w (get_all_developers added)
                 = [Developer.mk user_id username now added_by]).
  { unfold added, add_developer, get_all_developers; simpl.
    apply insert_by_rowid_select.
    - unfold w; simpl. apply Z.eqb_refl.
    - intros y Hy. unfold sql_delete in Hy. apply filter_In in Hy.
      now apply negb_true_iff. }
  split; [|split; [|split; [|split; [|split]]]].
  - unfold is_developer. fold w.
    change (developers added) with (get_all_developers added).
    now rewrite Hsel.
  - exact Hsel.
  - unfold removed, remove_developer, is_developer; simpl. fold w.
    unfold rowcount. fold (sql_select w (developers db)).
    now destruct (sql_select w (developers db)).
  - unfold removed, remove_developer, is_developer; simpl. fold w.
    now rewrite select_after_delete.
  - intros user_id' Hne.
    set (w' := fun d => Developer.user_id d =? user_id').
    assert (Hd : forall d, w' d = true -> w d = false).
    { intros d Hd. unfold w, w' in *. lia. }
    unfold is_developer, added, removed, add_developer, remove_developer;
      simpl. fold w w'.
    rewrite !fetchone_existsb, insert_by_rowid_existsb.
    assert (Hx : w' (Developer.mk user_id username now added_by) = false)
      by (unfold w'; simpl; lia).
    rewrite Hx. simpl.
    rewrite <- !fetchone_existsb.
    rewrite select_after_other_delete; auto.
  - intros Hasc. unfold added, removed, add_developer, remove_developer;
      simpl. split.
    + apply insert_by_rowid_ascending.
      * now apply delete_ascending.
      * apply (delete_removes_rowid Developer.user_id user_id).
    + now apply delete_ascending.
Qed.

Lemma developers_upsert_and_remove_witness :
  map Developer.user_id
    (get_all_developers
       (snd (add_developer "2024-05-01T09:00:02.000032"
               (snd (add_developer "2024-05-01T09:00:01.000031"
                       (snd (add_developer "2024-05-01T09:00:00.000030"
                               init_database 7 None None))
                       3 (Some "dev"%string) (Some 7)))
               7 (Some "root"%string) None)))
  = [3; 7]
  /\ ascending
       (map Developer.user_id
          (developers
             (snd (add_developer "2024-05-01T09:00:00.000030" init_database
                     7 None None)))).
Proof.
  split; [reflexivity|].
  apply (developers_upsert_and_remove "2024-05-01T09:00:00.000030"
           init_database 7 None None).
  constructor.
Defined.

(** X21: [get_all_banned_makers] lists exactly the users for which
    [is_maker_banned] holds; [ban_maker] bans, [unban_maker] returns
    whether the user was banned and lifts the ban; and when the table is
    in ascending user_id order it stays so, with no user listed twice. *)
Theorem banned_makers_listing (now : string) (db : database) (user_id : Z)
    (banned_by : option Z) :
  (forall user_id', In user_id' (get_all_banned_makers db)
                    <-> is_maker_banned db user_id' = true)
  /\ is_maker_banned (snd (ban_maker now db user_id banned_by)) user_id
     = true
  /\ fst (unban_maker db user_id) = is_maker_banned db user_id
  /\ is_maker_banned (snd (unban_maker db user_id)) user_id = false
  /\ (ascending (get_all_banned_makers db) ->
      ascending
        (get_all_banned_makers (snd (ban_maker now db user_id banned_by)))
      /\ ascending (get_all_banned_makers (snd (unban_maker db user_id)))
      /\ NoDup (get_all_banned_makers db)).
Proof.
  set (w := fun m => BannedMaker.user_id m =? user_id).
  split; [|split; [|split; [|split]]].
  - intros user_id'. unfold get_all_banned_makers, is_maker_banned.
    rewrite fetchone_existsb, existsb_exists, in_map_iff.
    split; intros [m [H1 H2]]; exists m.
    + split; auto. lia.
    + split; auto. lia.
  - unfold is_maker_banned, ban_maker; simpl. fold w.
    rewrite fetchone_existsb, insert_by_rowid_existsb.
    unfold w at 1; simpl. now rewrite Z.eqb_refl.
  - unfold unban_maker, is_maker_banned; simpl. fold w.
    unfold rowcount. fold (sql_select w (banned_makers db)).
    now destruct (sql_select w (banned_makers db)).
  - unfold unban_maker, is_maker_banned; simpl. fold w.
    now rewrite select_after_delete.
  - intros Hasc. unfold get_all_banned_makers, ban_maker, unban_maker in *;
      simpl. split; [|split].
    + apply insert_by_rowid_ascending.
      * now apply delete_ascending.
      * apply (delete_removes_rowid BannedMaker.user_id user_id).
    + now apply delete_ascending.
    + now apply ascending_NoDup.
Qed.

Lemma banned_makers_listing_witness :
  get_all_banned_makers
    (snd (ban_maker "2024-05-01T09:10:01.000034"
            (snd (ban_maker "2024-05-01T09:10:00.000033" init_database 9
                    None)) 4 (Some 7)))
  = [4; 9]
  /\ NoDup (get_all_banned_makers init_database).
Proof.
  split; [reflexivity|].
  apply (banned_makers_listing "" init_database 0 None). constructor.
Defined.

(** ** Fake subscriptions *)

(** X22: [set_fake_sub] returns True and [get_fake_sub] then gives the
    row of this call, enabled stored as 1 or 0; the bot has that one row,
    whatever was stored for it before, and the rows of the other bots are
    as before. *)
Theorem set_fake_sub_then_get (now : string) (db : database)
    (bot_token : string) (enabled : bool) (message : option string) :
  let r := set_fake_sub now db bot_token enabled message in
  let new := FakeSub.mk bot_token (if enabled then 1 else 0) message now in
  fst r = true
  /\ get_fake_sub (snd r) bot_token = Some new
  /\ sql_select (fun f => String.eqb (FakeSub.bot_token f) bot_token)
       (fake_subs (snd r)) = [new]
  /\ (forall bot_token', bot_token' <> bot_token ->
        get_fake_sub (snd r) bot_token' = get_fake_sub db bot_token').
Proof.
  intros r new.
  assert (Hsel : sql_select
                   (fun f => String.eqb (FakeSub.bot_token f) bot_token)
                   (fake_subs (snd r)) = [new]).
  { unfold r, set_fake_sub; simpl.
    rewrite select_app, select_after_delete. simpl.
    now rewrite String.eqb_refl. }
  split; [reflexivity|]. split; [|split; [exact Hsel|]].
  - unfold get_fake_sub. now rewrite Hsel.
  - intros bot_token' Hne. unfold get_fake_sub, r, set_fake_sub; simpl.
    rewrite select_app. simpl.
    assert (E : String.eqb bot_token bot_token' = false)
      by (apply String.eqb_neq; congruence).
    rewrite E, app_nil_r.
    rewrite select_after_other_delete; auto.
    intros f. now apply other_string.
Qed.

Lemma set_fake_sub_then_get_witness :
  get_fake_sub
    (snd (set_fake_sub "2024-05-01T14:00:01.000051"
            (snd (set_fake_sub "2024-05-01T14:00:00.000050" init_database
                    "123:abc" true (Some "join @channel"%string)))
            "456:def" false None)) "123:abc"
  = Some (FakeSub.mk "123:abc" 1 (Some "join @channel"%string)
            "2024-05-01T14:00:00.000050").
Proof.
  destruct (set_fake_sub_then_get "2024-05-01T14:00:01.000051"
              (snd (set_fake_sub "2024-05-01T14:00:00.000050" init_database
                      "123:abc" true (Some "join @channel"%string)))
              "456:def" false None) as [_ [_ [_ A]]].
  rewrite A by discriminate. reflexivity.
Defined.

(** X23: [get_all_fake_subs] lists a bot exactly when its stored row has
    enabled = 1: after [set_fake_sub] with enabled false the bot is not
    listed, after [set_fake_sub] with enabled true it is listed once,
    with the row of that call; the other bots are listed as before. *)
Theorem get_all_fake_subs_enabled_only (now : string) (db : database)
    (bot_token : string) (enabled : bool) (message : option string) :
  let db' := snd (set_fake_sub now db bot_token enabled message) in
  sql_select (fun f => String.eqb (FakeSub.bot_token f) bot_token)
    (get_all_fake_subs db')
  = (if enabled then [FakeSub.mk bot_token 1 message now] else [])
  /\ (forall bot_token', bot_token' <> bot_token ->
        sql_select (fun f => String.eqb (FakeSub.bot_token f) bot_token')
          (get_all_fake_subs db')
        = sql_select (fun f => String.eqb (FakeSub.bot_token f) bot_token')
            (get_all_fake_subs db)).
Proof.
  intros db'. unfold db', get_all_fake_subs, set_fake_sub; simpl.
  unfold sql_select, sql_delete. split.
  - rewrite !filter_app. simpl.
    assert (Hnil : filter
                     (fun f => String.eqb (FakeSub.bot_token f) bot_token)
                     (filter (fun f => FakeSub.enabled f =? 1)
                        (filter
                           (fun f =>
                              negb (String.eqb (FakeSub.bot_token f)
                                      bot_token)) (fake_subs db))) = []).
    { apply select_none. intros f Hf.
      apply filter_In in Hf. destruct Hf as [Hf _].
      apply filter_In in Hf. destruct Hf as [_ Hf].
      now apply negb_true_iff in Hf. }
    rewrite Hnil. destruct enabled; simpl; [|reflexivity].
    now rewrite String.eqb_refl.
  - intros bot_token' Hne. rewrite !filter_app. simpl.
    assert (E : String.eqb bot_token bot_token' = false)
      by (apply String.eqb_neq; congruence).
    assert (Hlast : filter
                      (fun f => String.eqb (FakeSub.bot_token f) bot_token')
                      (if (if enabled then 1 else 0) =? 1
                       then [FakeSub.mk bot_token (if enabled then 1 else 0)
                               message now]
                       else []) = []).
    { destruct enabled; simpl; [now rewrite E | reflexivity]. }
    rewrite Hlast, app_nil_r.
    induction (fake_subs db) as [|f t IH]; simpl; [reflexivity|].
    destruct (String.eqb (FakeSub.bot_token f) bot_token) eqn:Ef; simpl.
    + apply String.eqb_eq in Ef.
      assert (E' : String.eqb (FakeSub.bot_token f) bot_token' = false)
        by (apply String.eqb_neq; congruence).
      destruct (FakeSub.enabled f =? 1); simpl; [rewrite E'|]; exact IH.
    + destruct (FakeSub.enabled f =? 1); simpl; [|exact IH].
      destruct (String.eqb (FakeSub.bot_token f) bot_token'); simpl;
        now rewrite IH.
Qed.

Lemma get_all_fake_subs_enabled_only_witness :
  get_all_fake_subs
    (snd (set_fake_sub "2024-05-01T14:00:02.000052"
            (snd (set_fake_sub "2024-05-01T14:00:00.000050" init_database
                    "123:abc" true None)) "123:abc" false None)) = []
  /\ sql_select (fun f => String.eqb (FakeSub.bot_token f) "456:def")
       (get_all_fake_subs
          (snd (set_fake_sub "2024-05-01T14:00:00.000050" init_database
                  "123:abc" true None))) = [].
Proof.
  split; [reflexivity|].
  destruct (get_all_fake_subs_enabled_only "2024-05-01T14:00:00.000050"
              init_database "123:abc" true None) as [_ A].
  rewrite A by discriminate. reflexivity.
Defined.

(** ** Adhkar schedules *)

Lemma schedule_key_other bot_token chat_id bot_token' chat_id' a :
  bot_token' <> bot_token \/ chat_id' <> chat_id ->
  schedule_key bot_token' chat_id' a = true ->
  schedule_key bot_token chat_id a = false.
Proof.
  unfold schedule_key. intros Hne H.
  apply andb_true_iff in H. destruct H as [Ht Hc].
  apply String.eqb_eq in Ht. apply Z.eqb_eq in Hc.
  apply andb_false_iff. destruct Hne as [Hne|Hne].
  - left. apply String.eqb_neq. congruence.
  - right. apply Z.eqb_neq. congruence.
Qed.

(** X24: [add_adhkar_schedule] leaves one schedule for the chat, the one
    of this call, under a new id above every id of the table before the
    call (a schedule that is set again changes its id); the schedules of
    the other chats are as before, and [remove_adhkar_schedule] removes
    the schedule of its chat and no other. *)
Theorem adhkar_schedule_replaced (now : string) (db : database)
    (bot_token : string) (chat_id interval_minutes : Z)
    (end_time : option string) :
  let r := add_adhkar_schedule now db bot_token chat_id interval_minutes
             end_time in
  let id := next_rowid (seq_adhkar_schedules (sequences db))
              (map AdhkarSchedule.id (adhkar_schedules db)) in
  fst r = true
  /\ sql_select (schedule_key bot_token chat_id) (adhkar_schedules (snd r))
     = [AdhkarSchedule.mk id bot_token chat_id interval_minutes end_time
          now]
  /\ (forall a, In a (adhkar_schedules db) -> AdhkarSchedule.id a < id)
  /\ sql_select (schedule_key bot_token chat_id)
       (adhkar_schedules (remove_adhkar_schedule db bot_token chat_id))
     = []
  /\ (forall bot_token' chat_id',
        bot_token' <> bot_token \/ chat_id' <> chat_id ->
        sql_select (schedule_key bot_token' chat_id')
          (adhkar_schedules (snd r))
        = sql_select (schedule_key bot_token' chat_id')
            (adhkar_schedules db)
        /\ sql_select (schedule_key bot_token' chat_id')
             (adhkar_schedules
                (remove_adhkar_schedule db bot_token chat_id))
           = sql_select (schedule_key bot_token' chat_id')
               (adhkar_schedules db)).
Proof.
  intros r id. split; [reflexivity|]. split; [|split; [|split]].
  - unfold r, add_adhkar_schedule; simpl.
    rewrite select_app, select_after_delete. simpl.
    unfold schedule_key at 1; simpl.
    now rewrite String.eqb_refl, Z.eqb_refl.
  - intros a Ha. unfold id. apply next_rowid_fresh. now apply in_map.
  - unfold remove_adhkar_schedule; simpl. apply select_after_delete.
  - intros bot_token' chat_id' Hne.
    unfold r, add_adhkar_schedule, remove_adhkar_schedule; simpl.
    assert (Hd : forall a, schedule_key bot_token' chat_id' a = true ->
                   schedule_key bot_token chat_id a = false)
      by (intros a; now apply schedule_key_other).
    rewrite select_app, !select_after_other_delete by exact Hd.
    split; [|reflexivity]. simpl.
    destruct (schedule_key bot_token' chat_id' _) eqn:E.
    + apply Hd in E. unfold schedule_key in E; simpl in E.
      now rewrite String.eqb_refl, Z.eqb_refl in E.
    + apply app_nil_r.
Qed.

Lemma adhkar_schedule_replaced_witness :
  map AdhkarSchedule.id
    (adhkar_schedules
       (snd (add_adhkar_schedule "2024-05-01T13:00:02.000042"
               (snd (add_adhkar_schedule "2024-05-01T13:00:00.000040"
                       init_database "123:abc" (-100) 5 None))
               "123:abc" (-100) 15 (Some "2024-05-02T00:00:00"%string))))
  = [2]
  /\ sql_select (schedule_key "123:abc" (-200))
       (adhkar_schedules
          (snd (add_adhkar_schedule "2024-05-01T13:00:00.000040"
                  init_database "123:abc" (-100) 5 None))) = [].
Proof.
  split; [reflexivity|].
  destruct (adhkar_schedule_replaced "2024-05-01T13:00:00.000040"
              init_database "123:abc" (-100) 5 None) as [_ [_ [_ [_ A]]]].
  assert (H : "123:abc"%string <> "123:abc"%string \/ -200 <> -100)
    by (right; discriminate).
  rewrite (proj1 (A "123:abc"%string (-200) H)). reflexivity.
Defined.

(** *** Reading through the index of a UNIQUE constraint *)

Section IndexScan.
Context {row : Type} (k : row -> Z).
Implicit Types (x : row) (rows : list row) (w : row -> bool).

Lemma insert_by_index_In x rows a :
  In a (insert_by_index k x rows) -> a = x \/ In a rows.
Proof.
  induction rows as [|y rows IH]; simpl.
  - intros [<-|[]]. now left.
  - destruct (k x <=? k y); simpl.
    + intros [<-|H]; auto.
    + intros [<-|H]; auto. destruct (IH H); auto.
Qed.

Lemma insert_by_index_select w x rows :
  Permutation (sql_select w (x :: rows))
    (sql_select w (insert_by_index k x rows)).
Proof.
  unfold sql_select. induction rows as [|y rows IH]; simpl; [reflexivity|].
  destruct (k x <=? k y); simpl; [reflexivity|].
  simpl in IH. destruct (w x), (w y); simpl.
  - rewrite perm_swap. now apply perm_skip.
  - exact IH.
  - now apply perm_skip.
  - exact IH.
Qed.

(** The scan meets every selected row once. *)
Lemma index_scan_select w rows :
  Permutation (sql_select w rows) (sql_select w (index_scan k rows)).
Proof.
  induction rows as [|x rows IH]; simpl; [reflexivity|].
  etransitivity; [|apply insert_by_index_select].
  unfold sql_select in *. simpl.
  destruct (w x); [now apply perm_skip | exact IH].
Qed.

Lemma index_scan_all rows : Permutation rows (index_scan k rows).
Proof.
  rewrite <- (filter_true rows) at 1.
  rewrite <- (filter_true (index_scan k rows)).
  exact (index_scan_select (fun _ => true) rows).
Qed.

Lemma insert_by_index_ascending x rows :
  StronglySorted (fun a b => k a <= k b) rows ->
  StronglySorted (fun a b => k a <= k b) (insert_by_index k x rows).
Proof.
  induction rows as [|y rows IH]; simpl; intros H.
  - repeat constructor.
  - inversion H as [|? ? Hs Hall]; subst.
    destruct (k x <=? k y) eqn:E.
    + apply Z.leb_le in E. constructor; [exact H|].
      constructor; [exact E|].
      eapply Forall_impl; [|exact Hall]. simpl. intros a Ha. lia.
    + apply Z.leb_gt in E. constructor; [now apply IH|].
      apply Forall_forall. intros a Ha.
      apply insert_by_index_In in Ha. destruct Ha as [->|Ha]; [lia|].
      rewrite Forall_forall in Hall. now apply Hall.
Qed.

Lemma index_scan_ascending rows :
  StronglySorted (fun a b => k a <= k b) (index_scan k rows).
Proof.
  induction rows as [|x rows IH]; simpl; [constructor|].
  now apply insert_by_index_ascending.
Qed.
End IndexScan.

Lemma select_of_bot_chat bot_token chat_id (t : list AdhkarSchedule.row) :
  sql_select (fun a => AdhkarSchedule.chat_id a =? chat_id)
    (sql_select (of_bot bot_token) t)
  = sql_select (schedule_key bot_token chat_id) t.
Proof.
  unfold sql_select, schedule_key, of_bot.
  induction t as [|a t IH]; simpl; [reflexivity|].
  destruct (String.eqb (AdhkarSchedule.bot_token a) bot_token); simpl;
    [|exact IH].
  destruct (AdhkarSchedule.chat_id a =? chat_id); now rewrite IH.
Qed.

(** X25: what [get_adhkar_schedules] lists after [add_adhkar_schedule].
    For the token of the call, which [if bot_token] takes for true, the
    listing holds the rows of that bot, each stored row once, by ascending
    chat_id; exactly one of them is for the chat of the call, the row just
    written; the listing of every other bot is the one from before the
    call.  With the empty string for a token the test is false, and the
    listing is that of a call without token: it holds the row just
    written for the bot of another token. *)
Theorem get_adhkar_schedules_after_add (now : string) (db : database)
    (bot_token : string) (chat_id interval_minutes : Z)
    (end_time : option string) :
  bot_token <> ""%string ->
  let db' := snd (add_adhkar_schedule now db bot_token chat_id
                    interval_minutes end_time) in
  let listing := get_adhkar_schedules db' (Some bot_token) in
  let written :=
    AdhkarSchedule.mk
      (next_rowid (seq_adhkar_schedules (sequences db))
         (map AdhkarSchedule.id (adhkar_schedules db)))
      bot_token chat_id interval_minutes end_time now in
  Permutation listing
    (sql_select (of_bot bot_token) (adhkar_schedules db'))
  /\ StronglySorted
       (fun a b => AdhkarSchedule.chat_id a <= AdhkarSchedule.chat_id b)
       listing
  /\ sql_select (fun a => AdhkarSchedule.chat_id a =? chat_id) listing
     = [written]
  /\ (forall bot_token',
        bot_token' <> bot_token -> bot_token' <> ""%string ->
        get_adhkar_schedules db' (Some bot_token')
        = get_adhkar_schedules db (Some bot_token'))
  /\ get_adhkar_schedules db' (Some ""%string)
     = get_adhkar_schedules db' None
  /\ In written (get_adhkar_schedules db' (Some ""%string)).
Proof.
  intros Hne db' listing written.
  assert (Hl : listing
               = index_scan AdhkarSchedule.chat_id
                   (sql_select (of_bot bot_token) (adhkar_schedules db'))).
  { unfold listing, get_adhkar_schedules, truthy_str.
    apply String.eqb_neq in Hne. now rewrite Hne. }
  split; [|split; [|split; [|split; [|split]]]].
  - rewrite Hl. symmetry. apply index_scan_all.
  - rewrite Hl. apply index_scan_ascending.
  - apply Permutation_length_1_inv. rewrite Hl.
    etransitivity; [|apply index_scan_select].
    rewrite select_of_bot_chat.
    unfold db', add_adhkar_schedule; simpl.
    rewrite select_app, select_after_delete. simpl.
    unfold schedule_key at 1; simpl.
    now rewrite String.eqb_refl, Z.eqb_refl.
  - intros bot_token' Hne' Hne''.
    unfold get_adhkar_schedules, truthy_str.
    apply String.eqb_neq in Hne''. rewrite Hne''. simpl. f_equal.
    unfold db', add_adhkar_schedule; simpl.
    rewrite select_app, select_after_other_delete.
    + simpl. destruct (String.eqb bot_token bot_token') eqn:E.
      * apply String.eqb_eq in E. congruence.
      * apply app_nil_r.
    + intros a Ha. unfold schedule_key.
      now rewrite (other_string bot_token bot_token' _ Hne' Ha).
  - reflexivity.
  - unfold get_adhkar_schedules, db', add_adhkar_schedule; simpl.
    apply in_or_app. right. now left.
Qed.

Lemma get_adhkar_schedules_after_add_witness :
  map AdhkarSchedule.id
    (get_adhkar_schedules
       (snd (add_adhkar_schedule "2024-05-01T13:00:04.000044"
               three_schedules "123:abc" (-300) 30 None))
       (Some "123:abc"%string)) = [5; 2; 4]
  /\ sql_select (fun a => AdhkarSchedule.chat_id a =? -300)
       (get_adhkar_schedules
          (snd (add_adhkar_schedule "2024-05-01T13:00:04.000044"
                  three_schedules "123:abc" (-300) 30 None))
          (Some "123:abc"%string))
     = [AdhkarSchedule.mk 5 "123:abc" (-300) 30 None
          "2024-05-01T13:00:04.000044"].
Proof.
  split; [reflexivity|].
  assert (H : "123:abc"%string <> ""%string) by discriminate.
  exact (proj1 (proj2 (proj2
           (get_adhkar_schedules_after_add "2024-05-01T13:00:04.000044"
              three_schedules "123:abc" (-300) 30 None H)))).
Defined.

(** ** Statistics *)

Lemma insert_by_users_count_length tie x l :
  length (insert_by_users_count tie x l) = S (length l).
Proof.
  induction l as [|y l IH]; simpl; [reflexivity|].
  destruct (more_users tie x y); simpl; auto.
Qed.

Lemma order_by_users_count_nil tie l :
  order_by_users_count_desc tie l = [] -> l = [].
Proof.
  destruct l as [|x l]; [reflexivity|]. simpl. intros H.
  apply (f_equal (@length Bot.row)) in H.
  rewrite insert_by_users_count_length in H. discriminate.
Qed.

(** The first row of ORDER BY users_count DESC is a row of the table with
    the largest users_count. *)
Lemma order_by_users_count_head tie l : forall h rest,
  order_by_users_count_desc tie l = h :: rest ->
  In h l /\ forall b, In b l -> Bot.users_count b <= Bot.users_count h.
Proof.
  induction l as [|x l IH]; intros h rest H; [discriminate|].
  simpl in H.
  destruct (order_by_users_count_desc tie l) as [|y s] eqn:E.
  - apply order_by_users_count_nil in E. subst l.
    simpl in H. injection H as <- _. split; [now left|].
    intros b [<-|[]]. lia.
  - destruct (IH y s eq_refl) as [Hy Hmax]. simpl in H.
    destruct (more_users tie x y) eqn:Em.
    + injection H as <- _. split; [now left|].
      assert (Hxy : Bot.users_count y <= Bot.users_count x).
      { unfold more_users in Em. apply orb_true_iff in Em.
        destruct Em as [Em|Em]; [lia|].
        apply andb_true_iff in Em. lia. }
      intros b [<-|Hb]; [lia|]. specialize (Hmax b Hb). lia.
    + injection H as <- _. split; [now right|].
      assert (Hxy : Bot.users_count x <= Bot.users_count y).
      { unfold more_users in Em. apply orb_false_iff in Em. lia. }
      intros b [<-|Hb]; [lia | auto].
Qed.

(** X26: in [get_statistics], whatever the engine does with equal
    counts, most_active_users is the largest users_count of the bots
    table and most_active_bot the username of a bot that has it; without
    bots they are 0 and None; and active_bots lies between 0 and
    total_bots. *)
Theorem get_statistics_most_active (tie : bot_tie_break) (db : database) :
  let s := get_statistics tie db in
  (forall b, In b (bots db) -> Bot.users_count b <= most_active_users s)
  /\ (bots db <> [] ->
      exists b, In b (bots db)
                /\ most_active_bot s = Some (Bot.bot_username b)
                /\ most_active_users s = Bot.users_count b)
  /\ (bots db = [] -> most_active_bot s = None /\ most_active_users s = 0)
  /\ 0 <= active_bots s <= total_bots s.
Proof.
  intros s. unfold s, get_statistics; simpl.
  change (sql_limit 1 ?l) with (firstn 1 l).
  destruct (order_by_users_count_desc tie (bots db)) as [|h rest] eqn:E.
  - apply order_by_users_count_nil in E. rewrite E. simpl.
    split; [intros b []|]. split; [intros H; now contradiction H|].
    split; [auto|]. unfold sql_count; simpl. lia.
  - destruct (order_by_users_count_head tie (bots db) h rest E)
      as [Hh Hmax].
    simpl. split; [exact Hmax|]. split; [|split].
    + intros _. exists h. auto.
    + intros Hnil. rewrite Hnil in Hh. destruct Hh.
    + unfold sql_count. split; [lia|].
      apply Nat2Z.inj_le.
      assert (Hall : filter (fun _ : Bot.row => true) (bots db) = bots db).
      { clear. induction (bots db) as [|b t IH]; simpl; congruence. }
      rewrite Hall. clear.
      induction (bots db) as [|b t IH]; simpl; [lia|].
      destruct (Bot.active b =? 1); simpl; lia.
Qed.

Lemma get_statistics_most_active_witness :
  most_active_bot (get_statistics (fun _ _ => true) two_users)
  = Some "first_bot"%string
  /\ most_active_users (get_statistics (fun _ _ => true) two_users) = 2.
Proof.
  destruct (get_statistics_most_active (fun _ _ => true) two_users)
    as [_ [A _]].
  assert (H : bots two_users <> []) by discriminate.
  destruct (A H) as [b [Hb [Hu Hc]]].
  destruct Hb as [<-|[]]. split; [exact Hu | exact Hc].
Defined.

(** ** Members, continued *)

(** X27: after [add_member] the user has one row, the one of this call
    with the counter kept, and every other member is looked up as before;
    [increment_bots_created] for a user who is not a member changes
    nothing, and for a member it leaves the other members as they were. *)
Theorem members_upsert_frame (now : string) (db : database) (user_id : Z)
    (first_name : string) (username : option string) :
  let db' := add_member now db user_id first_name username in
  sql_count (fun r => Member.user_id r =? user_id) (members db') = 1
  /\ (forall user_id', user_id' <> user_id ->
        get_member db' user_id' = get_member db user_id'
        /\ get_member (increment_bots_created db user_id) user_id'
           = get_member db user_id')
  /\ (get_member db user_id = None ->
      increment_bots_created db user_id = db).
Proof.
  intros db'.
  set (w := fun r => Member.user_id r =? user_id).
  split; [|split].
  - unfold db', add_member, sql_count; simpl. fold w.
    fold (sql_select w (sql_delete w (members db)
                        ++ [Member.mk user_id first_name username now
                              match fetchone (sql_select w (members db))
                              with
                              | Some r => Member.bots_created r
                              | None => 0
                              end])).
    rewrite select_app, select_after_delete. simpl.
    unfold w at 1; simpl. now rewrite Z.eqb_refl.
  - intros user_id' Hne.
    set (w' := fun r => Member.user_id r =? user_id').
    assert (Hd : forall r, w' r = true -> w r = false)
      by (intros r Hr; unfold w, w' in *; lia).
    split.
    + unfold get_member, db', add_member; simpl. fold w w'.
      rewrite select_app, select_after_other_delete by exact Hd.
      simpl. unfold w' at 2; simpl.
      assert (E : (user_id =? user_id') = false) by lia.
      rewrite E. now rewrite app_nil_r.
    + unfold get_member, increment_bots_created; simpl. fold w w'.
      f_equal. unfold sql_select, sql_update.
      induction (members db) as [|m t IH]; simpl; [reflexivity|].
      destruct (w m) eqn:Em.
      * assert (E1 : w' m = false).
        { destruct (w' m) eqn:E'; auto. rewrite (Hd m E') in Em.
          discriminate. }
        assert (E2 : w' (Member.mk (Member.user_id m) (Member.first_name m)
                           (Member.username m) (Member.joined_at m)
                           (Member.bots_created m + 1)) = false)
          by exact E1.
        rewrite E1, E2. exact IH.
      * now rewrite IH.
  - intros Hnone. unfold increment_bots_created.
    rewrite update_none; [now destruct db|].
    intros r Hr. destruct (Member.user_id r =? user_id) eqn:E; auto.
    exfalso. unfold get_member in Hnone.
    assert (Hin : In r (sql_select w (members db)))
      by (apply filter_In; auto).
    fold w in Hnone.
    destruct (sql_select w (members db)); [contradiction | discriminate].
Qed.

Lemma members_upsert_frame_witness :
  increment_bots_created init_database 42 = init_database.
Proof.
  apply (members_upsert_frame "" init_database 42 "" None). reflexivity.
Defined.
